(** * animal_shelter.py: the generic MongoDB CRUD layer and the rescue finder

    A shallow embedding of [MongoDBCRUD] and [AnimalShelter].  Python values
    are an inductive type, every method is a function in a small state and
    exception monad, and the pymongo driver is an interface ([Engine]) whose
    calls are recorded, with their outcome, in a trace. *)

From Stdlib Require Import ZArith Ascii String List Bool Lia.
From stdpp Require Import base option list strings gmap.

Local Open Scope string_scope.
Local Open Scope Z_scope.
Set Warnings "-register-all".

(** ** Python values *)

(** The values a document, a query or a method argument can hold.  A [dict]
    with string keys is an association list in insertion order. *)
Inductive pyval : Type :=
| PNone
| PBool (b : bool)
| PInt (n : Z)
| PStr (s : string)
| PObjectId (oid : N)
| PList (items : list pyval)
| PDict (fields : list (string * pyval)).

(** [bool(v)]: the truth value Python's [if v:] tests. *)
Definition truthy (v : pyval) : bool :=
  match v with
  | PNone => false
  | PBool b => b
  | PInt n => negb (n =? 0)
  | PStr s => negb (String.eqb s "")
  | PObjectId _ => true
  | PList items => match items with [] => false | _ :: _ => true end
  | PDict fields => match fields with [] => false | _ :: _ => true end
  end.

(** [v is None] and [isinstance(v, dict)]. *)
Definition is_none (v : pyval) : bool :=
  match v with PNone => true | _ => false end.

Definition is_dict (v : pyval) : bool :=
  match v with PDict _ => true | _ => false end.

(** [d.get(k)] on the association list of a dict. *)
Fixpoint dict_get (k : string) (fields : list (string * pyval)) : option pyval :=
  match fields with
  | [] => None
  | (k', v) :: rest => if String.eqb k k' then Some v else dict_get k rest
  end.

(** [stats.get(k, default)]. *)
Definition get_default (stats : list (string * pyval)) (k : string) (default : pyval) : pyval :=
  match dict_get k stats with Some v => v | None => default end.

(** [a or b] on optional strings: [None] and the empty string are false. *)
Definition str_truthy (a : option string) : bool :=
  match a with
  | Some s => negb (String.eqb s "")
  | None => false
  end.

Definition por (a b : option string) : option string :=
  if str_truthy a then a else b.

(** ** Exceptions, f-strings and the log *)

(** The exceptions of the program, all of them subclasses of [Exception]:
    the [ValueError] of the constructor and of [int()], and the faults of
    the driver (pymongo.errors), which carry their message. *)
Inductive exn : Type :=
| ValueError (msg : string)
| TypeError (msg : string)
| PyMongoError (msg : string).

(** An f-string keeps its interpolated values apart from its literal text. *)
Inductive piece : Type :=
| Lit (s : string)
| Num (n : Z)
| Val (v : pyval)
| Exn (e : exn).

Definition fstring : Type := list piece.

Inductive level : Type := INFO | WARNING | ERROR.

(** ** Driver handles and driver calls *)

Record Client : Type := { client_uri : fstring }.
Record Database : Type := { db_client : Client; db_name : string }.
Record Collection : Type := { coll_database : Database; coll_name : string }.

(** The handles [client[name]] and [database[name]] yield when the driver
    accepts the name; the subscripts themselves, which raise when it does
    not, are [client_subscript] and [database_subscript] below. *)
Definition client_getitem (c : Client) (name : string) : Database :=
  {| db_client := c; db_name := name |}.

Definition database_getitem (d : Database) (name : string) : Collection :=
  {| coll_database := d; coll_name := name |}.

(** A [MongoClient] object defines neither [__bool__] nor [__len__]. *)
Definition client_truthy (c : Client) : bool := true.

(** The calls the program makes into pymongo. *)
Inductive call : Type :=
| MongoClient (uri : fstring)
| Command_ping (db : Database)
| Command_collStats (db : Database) (name : string)
| Insert_one (c : Collection) (doc : pyval)
| Find (c : Collection) (query : pyval)
| Update_many (c : Collection) (query update : pyval)
| Update_one (c : Collection) (query update : pyval)
| Delete_many (c : Collection) (query : pyval)
| Delete_one (c : Collection) (query : pyval)
| Count_documents (c : Collection) (query : pyval)
| Close (c : Client).

(** What each call returns when it does not raise: the client, the
    [inserted_id], the materialised cursor, [modified_count],
    [deleted_count], the count, the statistics mapping. *)
Definition reply (c : call) : Type :=
  match c with
  | MongoClient _ => Client
  | Command_ping _ => unit
  | Command_collStats _ _ => list (string * pyval)
  | Insert_one _ _ => pyval
  | Find _ _ => list pyval
  | Update_many _ _ _ | Update_one _ _ _ => Z
  | Delete_many _ _ | Delete_one _ _ => Z
  | Count_documents _ _ => Z
  | Close _ => unit
  end.

(** The driver and the server behind it: a call either raises or replies,
    and moves the server's state [W]; a name given to a subscript is checked
    by the driver, without I/O, and refused with an exception or accepted. *)
Class Engine (W : Type) : Type := {
  engine_step : forall c : call, W -> (exn + reply c) * W;
  database_name_check : string -> option exn;
  collection_name_check : string -> option exn
}.

(** One entry of the trace: the call and the fault it raised, if any. *)
Record event : Type := { ev_call : call; ev_fault : option exn }.

(** ** The monad of the methods *)

(** Everything outside the object: the server, the trace of driver calls,
    the records of [self.logger] and what [print] wrote. *)
Record sys (W : Type) : Type := {
  world : W;
  trace : list event;
  logs : list (level * fstring);
  stdout : list fstring
}.
Arguments world {W} _.
Arguments trace {W} _.
Arguments logs {W} _.
Arguments stdout {W} _.

Inductive outcome (A : Type) : Type :=
| Return (a : A)
| Raise (e : exn).
Arguments Return {A} a.
Arguments Raise {A} e.

Definition M (W A : Type) : Type := sys W -> outcome A * sys W.

Definition ret {W A} (a : A) : M W A := fun st => (Return a, st).

Definition raise {W A} (e : exn) : M W A := fun st => (Raise e, st).

Definition bind {W A B} (m : M W A) (k : A -> M W B) : M W B :=
  fun st =>
    match m st with
    | (Return a, st') => k a st'
    | (Raise e, st') => (Raise e, st')
    end.

(** [try: body except Exception as e: handler]. *)
Definition try_except {W A} (body : M W A) (handler : exn -> M W A) : M W A :=
  fun st =>
    match body st with
    | (Return a, st') => (Return a, st')
    | (Raise e, st') => handler e st'
    end.

Declare Scope py_scope.
Delimit Scope py_scope with py.
Notation "x <- m ;; k" := (bind m (fun x => k))
  (at level 100, m at next level, right associativity) : py_scope.
Notation "m ;; k" := (bind m (fun _ => k))
  (at level 100, right associativity) : py_scope.

Definition logger {W} (l : level) (msg : fstring) : M W unit :=
  fun st => (Return tt, {| world := world st; trace := trace st;
                           logs := logs st ++ [(l, msg)]; stdout := stdout st |}).

Definition print {W} (msg : fstring) : M W unit :=
  fun st => (Return tt, {| world := world st; trace := trace st;
                           logs := logs st; stdout := stdout st ++ [msg] |}).

(** A driver call: run the engine and append the call to the trace. *)
Definition pymongo {W} `{Engine W} (c : call) : M W (reply c) :=
  fun st =>
    match engine_step c (world st) with
    | (inl e, w') =>
        (Raise e, {| world := w'; trace := trace st ++ [{| ev_call := c; ev_fault := Some e |}];
                     logs := logs st; stdout := stdout st |})
    | (inr r, w') =>
        (Return r, {| world := w'; trace := trace st ++ [{| ev_call := c; ev_fault := None |}];
                      logs := logs st; stdout := stdout st |})
    end.

(** [client[name]] and [database[name]] as the driver runs them: no call to
    the server, the handle for a name the driver accepts, its exception for
    one it refuses. *)
Definition client_subscript {W} `{Engine W} (c : Client) (name : string) : M W Database :=
  match database_name_check name with
  | Some e => raise e
  | None => ret (client_getitem c name)
  end.

Definition database_subscript {W} `{Engine W} (d : Database) (name : string)
  : M W Collection :=
  match collection_name_check name with
  | Some e => raise e
  | None => ret (database_getitem d name)
  end.

(** ** Methods that assign attributes

    A method that assigns attributes of [self] outside any [try] leaves the
    assignments made so far when it raises: its run yields the instance
    beside the outcome, whichever the outcome is. *)
Definition MS (S W A : Type) : Type := S -> sys W -> (outcome A * S) * sys W.

Definition bindS {S W A B} (m : MS S W A) (k : A -> MS S W B) : MS S W B :=
  fun self st =>
    match m self st with
    | ((Return a, self'), st') => k a self' st'
    | ((Raise e, self'), st') => ((Raise e, self'), st')
    end.

(** An effect that leaves the instance as it is. *)
Definition lift {S W A} (m : M W A) : MS S W A :=
  fun self st =>
    match m st with
    | (o, st') => ((o, self), st')
    end.

(** [self.x = v] and a read of [self]. *)
Definition assign {S W} (f : S -> S) : MS S W unit :=
  fun self st => ((Return tt, f self), st).

Definition get_self {S W} : MS S W S :=
  fun self st => ((Return self, self), st).

Declare Scope meth_scope.
Delimit Scope meth_scope with meth.
Notation "x <- m ;; k" := (bindS m (fun x => k))
  (at level 100, m at next level, right associativity) : meth_scope.
Notation "m ;; k" := (bindS m (fun _ => k))
  (at level 100, right associativity) : meth_scope.

(** ** class MongoDBCRUD *)

Module MongoDBCRUD.

(** The attributes of an instance once [__init__] has returned. *)
Record store : Type := {
  username : option string;
  password : option string;
  host : string;
  port : Z;
  database_name : string;
  collection_name : string;
  auth_source : string;
  client : Client;
  database : Database;
  collection : Collection
}.

(** The arguments of [__init__], [None] when omitted. *)
Record init_args : Type := {
  arg_username : option string;
  arg_password : option string;
  arg_host : option string;
  arg_port : option Z;
  arg_database_name : option string;
  arg_collection_name : option string;
  arg_auth_source : string
}.

(** The values of the attributes before [_connect] has bound the handles. *)
Record config : Type := {
  cfg_username : option string;
  cfg_password : option string;
  cfg_host : string;
  cfg_port : Z;
  cfg_database_name : string;
  cfg_collection_name : string;
  cfg_auth_source : string
}.

Section Methods.

Context {W : Type} `{Engine W}.

(** [os.getenv] and the builtin [int] on a string, which are not part of
    the program. *)
Variable getenv : string -> option string.
Variable py_int : string -> option Z.

Local Open Scope py_scope.

(** [port or int(os.getenv('MONGO_PORT', 27017))]. *)
Definition resolve_port (p : option Z) : M W Z :=
  let from_env : M W Z :=
    match getenv "MONGO_PORT" with
    | Some s => match py_int s with
                | Some n => ret n
                | None => raise (ValueError "invalid literal for int() with base 10")
                end
    | None => ret 27017
    end in
  match p with
  | Some n => if negb (n =? 0) then ret n else from_env
  | None => from_env
  end.

(** [os.getenv('MONGO_HOST', 'localhost')]. *)
Definition getenv_default (name default : string) : string :=
  match getenv name with Some s => s | None => default end.

Definition connection_string (c : config) : fstring :=
  if str_truthy (cfg_username c) && str_truthy (cfg_password c) then
    [Lit "mongodb://"; Lit (default "" (cfg_username c)); Lit ":";
     Lit (default "" (cfg_password c)); Lit "@"; Lit (cfg_host c); Lit ":";
     Num (cfg_port c); Lit "/?authSource="; Lit (cfg_auth_source c)]
  else
    [Lit "mongodb://"; Lit (cfg_host c); Lit ":"; Num (cfg_port c)].

(** [_connect]: build the client and the two handles, ping, and on any
    exception log it, print it and raise it again. *)
Definition _connect (c : config) : M W store :=
  try_except
    (cl <- pymongo (MongoClient (connection_string c)) ;;
     db <- client_subscript cl (cfg_database_name c) ;;
     coll <- database_subscript db (cfg_collection_name c) ;;
     pymongo (Command_ping db) ;;
     logger INFO [Lit "Successfully connected to MongoDB: ";
                  Lit (cfg_database_name c); Lit "."; Lit (cfg_collection_name c)] ;;
     print [Lit "Connection to MongoDB successful: ";
            Lit (cfg_database_name c); Lit "."; Lit (cfg_collection_name c)] ;;
     ret {| username := cfg_username c; password := cfg_password c;
            host := cfg_host c; port := cfg_port c;
            database_name := cfg_database_name c;
            collection_name := cfg_collection_name c;
            auth_source := cfg_auth_source c;
            client := cl; database := db; collection := coll |})
    (fun e =>
       logger ERROR [Lit "Error connecting to MongoDB: "; Exn e] ;;
       print [Lit "Error connecting to MongoDB: "; Exn e] ;;
       raise e).

(** [__init__]: resolve the parameters, validate the two names, connect. *)
Definition __init__ (a : init_args) : M W store :=
  let username := por (arg_username a) (getenv "MONGO_USERNAME") in
  let password := por (arg_password a) (getenv "MONGO_PASSWORD") in
  let host := if str_truthy (arg_host a) then default "" (arg_host a)
              else getenv_default "MONGO_HOST" "localhost" in
  port <- resolve_port (arg_port a) ;;
  let database_name := por (arg_database_name a) (getenv "MONGO_DATABASE") in
  let collection_name := por (arg_collection_name a) (getenv "MONGO_COLLECTION") in
  if negb (str_truthy database_name) then
    raise (ValueError "Database name is required")
  else if negb (str_truthy collection_name) then
    raise (ValueError "Collection name is required")
  else
    _connect {| cfg_username := username; cfg_password := password;
                cfg_host := host; cfg_port := port;
                cfg_database_name := default "" database_name;
                cfg_collection_name := default "" collection_name;
                cfg_auth_source := arg_auth_source a |}.

(** The assignments of the two switches. *)
Definition set_collection_name (name : string) (self : store) : store :=
  {| username := username self; password := password self;
     host := host self; port := port self;
     database_name := database_name self; collection_name := name;
     auth_source := auth_source self;
     client := client self; database := database self; collection := collection self |}.

Definition set_collection (coll : Collection) (self : store) : store :=
  {| username := username self; password := password self;
     host := host self; port := port self;
     database_name := database_name self; collection_name := collection_name self;
     auth_source := auth_source self;
     client := client self; database := database self; collection := coll |}.

Definition set_database_name (name : string) (self : store) : store :=
  {| username := username self; password := password self;
     host := host self; port := port self;
     database_name := name; collection_name := collection_name self;
     auth_source := auth_source self;
     client := client self; database := database self; collection := collection self |}.

Definition set_database (db : Database) (self : store) : store :=
  {| username := username self; password := password self;
     host := host self; port := port self;
     database_name := database_name self; collection_name := collection_name self;
     auth_source := auth_source self;
     client := client self; database := db; collection := collection self |}.

(** [switch_collection]: the name is assigned, then the handle is asked of
    the driver, which may refuse the name; no [try] surrounds either. *)
Definition switch_collection (new_collection_name : string) : MS store W unit :=
  (assign (set_collection_name new_collection_name) ;;
   self <- get_self ;;
   coll <- lift (database_subscript (database self) new_collection_name) ;;
   assign (set_collection coll) ;;
   lift (print [Lit "Switched to collection: "; Lit new_collection_name]))%meth.

(** [switch_database]: likewise, for the database and then the collection,
    given or kept. *)
Definition switch_database (new_database_name : string)
    (new_collection_name : option string) : MS store W unit :=
  (assign (set_database_name new_database_name) ;;
   self <- get_self ;;
   db <- lift (client_subscript (client self) new_database_name) ;;
   assign (set_database db) ;;
   (if str_truthy new_collection_name then
      assign (set_collection_name (default "" new_collection_name)) ;;
      self <- get_self ;;
      coll <- lift (database_subscript (database self) (default "" new_collection_name)) ;;
      assign (set_collection coll)
    else
      self <- get_self ;;
      coll <- lift (database_subscript (database self) (collection_name self)) ;;
      assign (set_collection coll)) ;;
   self <- get_self ;;
   lift (print [Lit "Switched to database: "; Lit new_database_name; Lit ".";
                Lit (collection_name self)]))%meth.

Definition create (self : store) (data : pyval) : M W pyval :=
  try_except
    (if negb (is_none data) && is_dict data then
       inserted_id <- pymongo (Insert_one (collection self) data) ;;
       if truthy inserted_id then
         logger INFO [Lit "Document inserted with ID: "; Val inserted_id] ;;
         ret (PBool true)
       else ret (PBool false)
     else
       logger WARNING [Lit "Invalid data provided for create operation"] ;;
       print [Lit "Error: Data parameter must be a non-empty dictionary"] ;;
       ret (PBool false))
    (fun e =>
       logger ERROR [Lit "Error inserting document: "; Exn e] ;;
       print [Lit "Error inserting document: "; Exn e] ;;
       ret (PBool false)).

Definition read (self : store) (query : pyval) : M W pyval :=
  try_except
    (let query := if is_none query then PDict [] else query in
     if is_dict query then
       result_list <- pymongo (Find (collection self) query) ;;
       logger INFO [Lit "Found "; Num (Z.of_nat (length result_list)); Lit " documents"] ;;
       ret (PList result_list)
     else
       logger WARNING [Lit "Invalid query provided for read operation"] ;;
       print [Lit "Error: Query parameter must be a dictionary"] ;;
       ret (PList []))
    (fun e =>
       logger ERROR [Lit "Error querying documents: "; Exn e] ;;
       print [Lit "Error querying documents: "; Exn e] ;;
       ret (PList [])).

Definition update (self : store) (query update_data : pyval) (update_many : bool) : M W pyval :=
  try_except
    (if negb (is_none query) && is_dict query &&
        (negb (is_none update_data) && is_dict update_data) then
       modified_count <-
         (if update_many
          then pymongo (Update_many (collection self) query (PDict [("$set", update_data)]))
          else pymongo (Update_one (collection self) query (PDict [("$set", update_data)]))) ;;
       logger INFO [Lit "Updated "; Num modified_count; Lit " documents"] ;;
       ret (PInt modified_count)
     else
       logger WARNING [Lit "Invalid parameters provided for update operation"] ;;
       print [Lit "Error: Both query and update_data parameters must be dictionaries"] ;;
       ret (PInt 0))
    (fun e =>
       logger ERROR [Lit "Error updating documents: "; Exn e] ;;
       print [Lit "Error updating documents: "; Exn e] ;;
       ret (PInt 0)).

Definition delete (self : store) (query : pyval) (delete_many : bool) : M W pyval :=
  try_except
    (if negb (is_none query) && is_dict query then
       deleted_count <-
         (if delete_many
          then pymongo (Delete_many (collection self) query)
          else pymongo (Delete_one (collection self) query)) ;;
       logger INFO [Lit "Deleted "; Num deleted_count; Lit " documents"] ;;
       ret (PInt deleted_count)
     else
       logger WARNING [Lit "Invalid query provided for delete operation"] ;;
       print [Lit "Error: Query parameter must be a dictionary"] ;;
       ret (PInt 0))
    (fun e =>
       logger ERROR [Lit "Error deleting documents: "; Exn e] ;;
       print [Lit "Error deleting documents: "; Exn e] ;;
       ret (PInt 0)).

Definition count_documents (self : store) (query : pyval) : M W pyval :=
  try_except
    (let query := if is_none query then PDict [] else query in
     if is_dict query then
       count <- pymongo (Count_documents (collection self) query) ;;
       ret (PInt count)
     else
       print [Lit "Error: Query parameter must be a dictionary"] ;;
       ret (PInt 0))
    (fun e =>
       logger ERROR [Lit "Error counting documents: "; Exn e] ;;
       print [Lit "Error counting documents: "; Exn e] ;;
       ret (PInt 0)).

Definition close_connection (self : store) : M W pyval :=
  try_except
    (if client_truthy (client self) then
       pymongo (Close (client self)) ;;
       logger INFO [Lit "MongoDB connection closed"] ;;
       print [Lit "MongoDB connection closed successfully"] ;;
       ret PNone
     else ret PNone)
    (fun e =>
       logger ERROR [Lit "Error closing connection: "; Exn e] ;;
       print [Lit "Error closing connection: "; Exn e] ;;
       ret PNone).

Definition get_collection_info (self : store) : M W pyval :=
  try_except
    (stats <- pymongo (Command_collStats (database self) (collection_name self)) ;;
     ret (PDict [("database", PStr (database_name self));
                 ("collection", PStr (collection_name self));
                 ("document_count", get_default stats "count" (PInt 0));
                 ("size_bytes", get_default stats "size" (PInt 0));
                 ("avg_document_size", get_default stats "avgObjSize" (PInt 0))]))
    (fun e =>
       logger ERROR [Lit "Error getting collection info: "; Exn e] ;;
       ret (PDict [])).

End Methods.

End MongoDBCRUD.

(** ** class AnimalShelter(MongoDBCRUD) *)

Module AnimalShelter.

(** The arguments of [__init__]; [defaults] holds the declared defaults. *)
Record init_args : Type := {
  arg_username : option string;
  arg_password : option string;
  arg_host : option string;
  arg_port : option Z;
  arg_database_name : option string;
  arg_collection_name : option string
}.

Definition defaults : init_args :=
  {| arg_username := Some "aacuser"; arg_password := Some "SNHU1234";
     arg_host := None; arg_port := None;
     arg_database_name := Some "AAC"; arg_collection_name := Some "animals" |}.

(** The age condition of a criterion, as the source writes it. *)
Definition age_between (lo hi : Z) : pyval :=
  PDict [("$and", PList [PDict [("$gte", PList [PStr "$age_upon_outcome_in_weeks"; PInt lo])];
                         PDict [("$lte", PList [PStr "$age_upon_outcome_in_weeks"; PInt hi])]])].

(** The local table [rescue_criteria] of [find_rescue_candidates]. *)
Definition rescue_criteria : list (string * pyval) :=
  [("water",
    PDict [("animal_type", PStr "Dog");
           ("breed", PDict [("$in", PList [PStr "Labrador Retriever Mix";
                                           PStr "Chesapeake Bay Retriever";
                                           PStr "Newfoundland";
                                           PStr "Portuguese Water Dog"])]);
           ("$expr", age_between 26 156)]);
   ("mountain",
    PDict [("animal_type", PStr "Dog");
           ("breed", PDict [("$in", PList [PStr "German Shepherd";
                                           PStr "Alaskan Malamute";
                                           PStr "Old English Sheepdog";
                                           PStr "Siberian Husky";
                                           PStr "Rottweiler"])]);
           ("$expr", age_between 26 156)]);
   ("disaster",
    PDict [("animal_type", PStr "Dog");
           ("breed", PDict [("$in", PList [PStr "Doberman Pinscher";
                                           PStr "German Shepherd";
                                           PStr "Golden Retriever";
                                           PStr "Bloodhound";
                                           PStr "Rottweiler"])]);
           ("$expr", age_between 20 300)])].

Section Methods.

Context {W : Type} `{Engine W}.
Variable getenv : string -> option string.
Variable py_int : string -> option Z.

Local Open Scope py_scope.

(** [super().__init__(username, password, host, port, database_name,
    collection_name)]: [auth_source] keeps its default. *)
Definition __init__ (a : init_args) : M W MongoDBCRUD.store :=
  MongoDBCRUD.__init__ getenv py_int
    {| MongoDBCRUD.arg_username := arg_username a;
       MongoDBCRUD.arg_password := arg_password a;
       MongoDBCRUD.arg_host := arg_host a;
       MongoDBCRUD.arg_port := arg_port a;
       MongoDBCRUD.arg_database_name := arg_database_name a;
       MongoDBCRUD.arg_collection_name := arg_collection_name a;
       MongoDBCRUD.arg_auth_source := "admin" |}.

Definition find_rescue_candidates (self : MongoDBCRUD.store) (rescue_type : string) : M W pyval :=
  match dict_get rescue_type rescue_criteria with
  | Some query => MongoDBCRUD.read self query
  | None =>
      print [Lit "Unknown rescue type: "; Lit rescue_type] ;;
      ret (PList [])
  end.

End Methods.

End AnimalShelter.

(** ** The criteria as the specification words them *)

Module RescueCriteria.

Record criteria : Type := {
  species : string;
  breeds : list string;
  min_weeks : Z;
  max_weeks : Z
}.

(** The three categories of the specification. *)
Definition of_category (category : string) : option criteria :=
  if String.eqb category "water" then
    Some {| species := "Dog";
            breeds := ["Labrador Retriever Mix"; "Chesapeake Bay Retriever";
                       "Newfoundland"; "Portuguese Water Dog"];
            min_weeks := 26; max_weeks := 156 |}
  else if String.eqb category "mountain" then
    Some {| species := "Dog";
            breeds := ["German Shepherd"; "Alaskan Malamute"; "Old English Sheepdog";
                       "Siberian Husky"; "Rottweiler"];
            min_weeks := 26; max_weeks := 156 |}
  else if String.eqb category "disaster" then
    Some {| species := "Dog";
            breeds := ["Doberman Pinscher"; "German Shepherd"; "Golden Retriever";
                       "Bloodhound"; "Rottweiler"];
            min_weeks := 20; max_weeks := 300 |}
  else None.

(** A document meets the criteria: its species is the one named, its breed
    is one of the set, its age in weeks is a number within the bounds. *)
Definition meets (c : criteria) (doc : list (string * pyval)) : bool :=
  match dict_get "animal_type" doc, dict_get "breed" doc,
        dict_get "age_upon_outcome_in_weeks" doc with
  | Some (PStr sp), Some (PStr b), Some (PInt age) =>
      String.eqb sp (species c) && existsb (String.eqb b) (breeds c)
      && (min_weeks c <=? age) && (age <=? max_weeks c)
  | _, _, _ => false
  end.

(** The criteria in the filter dialect of the engine: equality on the
    species, [$in] on the breed, both bounds on the age under [$expr]. *)
Definition query_of (c : criteria) : pyval :=
  PDict [("animal_type", PStr (species c));
         ("breed", PDict [("$in", PList (map PStr (breeds c)))]);
         ("$expr",
          PDict [("$and",
                  PList [PDict [("$gte", PList [PStr "$age_upon_outcome_in_weeks";
                                                PInt (min_weeks c)])];
                         PDict [("$lte", PList [PStr "$age_upon_outcome_in_weeks";
                                                PInt (max_weeks c)])]])])].

End RescueCriteria.

(** ** A reference engine

    An in-memory server for a fragment of the filter dialect, used to run
    the methods on concrete inputs: equality and [$in] on top-level fields
    (an array field matches through any of its elements), [$expr] with
    [$and], [$gte], [$lte] over field paths and literals, [$set] updates.
    A query outside the fragment makes the call raise. *)

Module Mongo.

Abbreviation document := (list (string * pyval)).

(** Equality of stored values: same type, same content, same field order. *)
Fixpoint pyval_eqb (a b : pyval) : bool :=
  match a, b with
  | PNone, PNone => true
  | PBool x, PBool y => Bool.eqb x y
  | PInt x, PInt y => x =? y
  | PStr x, PStr y => String.eqb x y
  | PObjectId x, PObjectId y => N.eqb x y
  | PList xs, PList ys =>
      (fix go (xs ys : list pyval) : bool :=
         match xs, ys with
         | [], [] => true
         | x :: xs', y :: ys' => pyval_eqb x y && go xs' ys'
         | _, _ => false
         end) xs ys
  | PDict xs, PDict ys =>
      (fix go (xs ys : document) : bool :=
         match xs, ys with
         | [], [] => true
         | (k, x) :: xs', (k', y) :: ys' => String.eqb k k' && pyval_eqb x y && go xs' ys'
         | _, _ => false
         end) xs ys
  | _, _ => false
  end.

(** A field against a literal: equal, or an array holding an equal element;
    a missing field equals [None]. *)
Definition value_eq (v : option pyval) (lit : pyval) : bool :=
  match v with
  | None => is_none lit
  | Some (PList items) => pyval_eqb (PList items) lit || existsb (fun x => pyval_eqb x lit) items
  | Some x => pyval_eqb x lit
  end.

Definition is_operator (k : string) : bool :=
  match k with
  | String "$"%char _ => true
  | _ => false
  end.

(** One [field: condition] entry of a filter; [None] outside the fragment. *)
Definition match_field (doc : document) (k : string) (cond : pyval) : option bool :=
  match cond with
  | PDict ((op, arg) :: rest) =>
      if is_operator op then
        match arg, rest with
        | PList lits, [] =>
            if String.eqb op "$in" then Some (existsb (value_eq (dict_get k doc)) lits) else None
        | _, _ => None
        end
      else Some (value_eq (dict_get k doc) cond)
  | _ => Some (value_eq (dict_get k doc) cond)
  end.

(** The value of an aggregation expression on a document. *)
Inductive agg : Type :=
| Unsupported
| Missing
| Value (v : pyval).

Definition agg_truthy (a : agg) : bool :=
  match a with
  | Value PNone | Missing | Unsupported => false
  | Value (PBool b) => b
  | Value (PInt n) => negb (n =? 0)
  | Value _ => true
  end.

Definition is_unsupported (a : agg) : bool :=
  match a with Unsupported => true | _ => false end.

(** The position of a value's type in the comparison order of the server. *)
Definition bson_rank (a : agg) : Z :=
  match a with
  | Unsupported | Missing => 0
  | Value PNone => 1
  | Value (PInt _) => 2
  | Value (PStr _) => 3
  | Value (PDict _) => 4
  | Value (PList _) => 5
  | Value (PObjectId _) => 6
  | Value (PBool _) => 7
  end.

(** Numbers compare by value, values of different types by the rank of
    their types; other comparisons are outside the fragment. *)
Definition bson_compare (a b : agg) : option comparison :=
  match a, b with
  | Unsupported, _ | _, Unsupported => None
  | Value (PInt x), Value (PInt y) => Some (x ?= y)
  | _, _ => if bson_rank a =? bson_rank b then None else Some (bson_rank a ?= bson_rank b)
  end.

Fixpoint eval_expr (doc : document) (e : pyval) : agg :=
  match e with
  | PStr (String "$"%char path) =>
      match dict_get path doc with Some v => Value v | None => Missing end
  | PDict [(op, PList args)] =>
      if String.eqb op "$and" then
        if existsb (fun x => is_unsupported (eval_expr doc x)) args then Unsupported
        else Value (PBool (forallb (fun x => agg_truthy (eval_expr doc x)) args))
      else if String.eqb op "$gte" then
        match args with
        | [a; b] =>
            match bson_compare (eval_expr doc a) (eval_expr doc b) with
            | Some Lt => Value (PBool false)
            | Some _ => Value (PBool true)
            | None => Unsupported
            end
        | _ => Unsupported
        end
      else if String.eqb op "$lte" then
        match args with
        | [a; b] =>
            match bson_compare (eval_expr doc a) (eval_expr doc b) with
            | Some Gt => Value (PBool false)
            | Some _ => Value (PBool true)
            | None => Unsupported
            end
        | _ => Unsupported
        end
      else Unsupported
  | PDict _ | PList _ => Unsupported
  | v => Value v
  end.

(** One entry of a filter. *)
Definition match_entry (doc : document) (entry : string * pyval) : option bool :=
  let (k, cond) := entry in
  if String.eqb k "$expr" then
    match eval_expr doc cond with
    | Unsupported => None
    | a => Some (agg_truthy a)
    end
  else if is_operator k then None
  else match_field doc k cond.

(** A filter matches when each of its entries does. *)
Fixpoint match_all (doc : document) (entries : list (string * pyval)) : option bool :=
  match entries with
  | [] => Some true
  | entry :: rest =>
      match match_entry doc entry, match_all doc rest with
      | Some b, Some b' => Some (b && b')
      | _, _ => None
      end
  end.

Definition matches (query : pyval) (doc : document) : option bool :=
  match query with
  | PDict entries => match_all doc entries
  | _ => None
  end.

(** The matching documents in stored order. *)
Fixpoint select (query : pyval) (docs : list document) : option (list document) :=
  match docs with
  | [] => Some []
  | d :: rest =>
      match matches query d, select query rest with
      | Some true, Some ds => Some (d :: ds)
      | Some false, Some ds => Some ds
      | _, _ => None
      end
  end.

(** [$set]: assign a field, in place when it exists and at the end when
    it does not. *)
Fixpoint dict_set (k : string) (v : pyval) (doc : document) : document :=
  match doc with
  | [] => [(k, v)]
  | (k', v') :: rest =>
      if String.eqb k k' then (k', v) :: rest else (k', v') :: dict_set k v rest
  end.

Definition apply_set (sets : document) (doc : document) : document :=
  fold_left (fun d kv => dict_set (fst kv) (snd kv) d) sets doc.

(** Patch the matching documents, all of them or the first one only;
    the count is that of the documents the patch has changed. *)
Fixpoint patch (many : bool) (query : pyval) (sets : document) (docs : list document)
  : option (list document * Z) :=
  match docs with
  | [] => Some ([], 0)
  | d :: rest =>
      match matches query d with
      | Some true =>
          let d' := apply_set sets d in
          let changed := if pyval_eqb (PDict d) (PDict d') then 0 else 1 in
          if many then
            match patch many query sets rest with
            | Some (ds, n) => Some (d' :: ds, changed + n)
            | None => None
            end
          else
            match select query rest with
            | Some _ => Some (d' :: rest, changed)
            | None => None
            end
      | Some false =>
          match patch many query sets rest with
          | Some (ds, n) => Some (d :: ds, n)
          | None => None
          end
      | None => None
      end
  end.

(** Remove the matching documents, all of them or the first one only. *)
Fixpoint remove (many : bool) (query : pyval) (docs : list document)
  : option (list document * Z) :=
  match docs with
  | [] => Some ([], 0)
  | d :: rest =>
      match matches query d with
      | Some true =>
          if many then
            match remove many query rest with
            | Some (ds, n) => Some (ds, 1 + n)
            | None => None
            end
          else
            match select query rest with
            | Some _ => Some (rest, 1)
            | None => None
            end
      | Some false =>
          match remove many query rest with
          | Some (ds, n) => Some (d :: ds, n)
          | None => None
          end
      | None => None
      end
  end.

(** The server: its collections by database and collection name, the next
    identifier the driver generates, and whether the server answers. *)
Record server : Type := {
  colls : gmap (string * string) (list document);
  next_oid : N;
  up : bool
}.

Definition key_of (c : Collection) : string * string :=
  (db_name (coll_database c), coll_name c).

Definition docs_of (w : server) (c : Collection) : list document :=
  default [] (colls w !! key_of c).

Definition with_docs (w : server) (c : Collection) (docs : list document) : server :=
  {| colls := <[key_of c := docs]> (colls w); next_oid := next_oid w; up := up w |}.

Definition has_id (id : pyval) (doc : document) : bool :=
  match dict_get "_id" doc with
  | Some i => pyval_eqb i id
  | None => false
  end.

(** A value that is neither an array nor a sub-document. *)
Definition is_scalar (v : pyval) : bool :=
  match v with
  | PList _ | PDict _ => false
  | _ => true
  end.

(** A document whose field [k] is an array; a server stores no document
    whose [_id] is one. *)
Definition holds_array (k : string) (doc : document) : bool :=
  match dict_get k doc with
  | Some (PList _) => true
  | _ => false
  end.

Definition id_is_array (doc : document) : bool := holds_array "_id" doc.

(** The document as stored: with the identifier the driver has added when
    it had none. *)
Definition stored (fields : document) (id : pyval) : document :=
  match dict_get "_id" fields with
  | Some _ => fields
  | None => (fields ++ [("_id", id)])%list
  end.

(** [insert_one]: the driver adds a generated [_id] to a document that has
    none, the server refuses an [_id] already present in the collection,
    and the reply is the [_id] of the stored document. *)
Definition insert_one (w : server) (c : Collection) (doc : pyval) : (exn + pyval) * server :=
  match doc with
  | PDict fields =>
      match dict_get "_id" fields with
      | Some id =>
          if existsb (has_id id) (docs_of w c)
          then (inl (PyMongoError "E11000 duplicate key error"), w)
          else (inr id, with_docs w c (docs_of w c ++ [fields])%list)
      | None =>
          let id := PObjectId (next_oid w) in
          let w' := {| colls := colls w; next_oid := N.succ (next_oid w); up := up w |} in
          if existsb (has_id id) (docs_of w c)
          then (inl (PyMongoError "E11000 duplicate key error"), w')
          else (inr id, with_docs w' c (docs_of w c ++ [(fields ++ [("_id", id)])%list])%list)
      end
  | _ => (inl (TypeError "document must be an instance of dict"), w)
  end.

Definition unsupported : exn := PyMongoError "OperationFailure: unsupported filter".

Definition unreachable : exn := PyMongoError "ServerSelectionTimeoutError".

Definition step (c : call) (w : server) : (exn + reply c) * server :=
  match c return (exn + reply c) * server with
  | MongoClient uri => (inr {| client_uri := uri |}, w)
  | Close _ => (inr tt, w)
  | Command_ping _ => if up w then (inr tt, w) else (inl unreachable, w)
  | Command_collStats db name =>
      if up w then
        (inr [("ns", PStr (db_name db ++ "." ++ name));
              ("count", PInt (Z.of_nat (length (docs_of w (database_getitem db name)))))], w)
      else (inl unreachable, w)
  | Insert_one coll doc =>
      if up w then insert_one w coll doc else (inl unreachable, w)
  | Find coll query =>
      if up w then
        match select query (docs_of w coll) with
        | Some ds => (inr (map PDict ds), w)
        | None => (inl unsupported, w)
        end
      else (inl unreachable, w)
  | Update_many coll query update =>
      if up w then
        match update with
        | PDict [(op, PDict sets)] =>
            if String.eqb op "$set" then
              match patch true query sets (docs_of w coll) with
              | Some (ds, n) => (inr n, with_docs w coll ds)
              | None => (inl unsupported, w)
              end
            else (inl unsupported, w)
        | _ => (inl unsupported, w)
        end
      else (inl unreachable, w)
  | Update_one coll query update =>
      if up w then
        match update with
        | PDict [(op, PDict sets)] =>
            if String.eqb op "$set" then
              match patch false query sets (docs_of w coll) with
              | Some (ds, n) => (inr n, with_docs w coll ds)
              | None => (inl unsupported, w)
              end
            else (inl unsupported, w)
        | _ => (inl unsupported, w)
        end
      else (inl unreachable, w)
  | Delete_many coll query =>
      if up w then
        match remove true query (docs_of w coll) with
        | Some (ds, n) => (inr n, with_docs w coll ds)
        | None => (inl unsupported, w)
        end
      else (inl unreachable, w)
  | Delete_one coll query =>
      if up w then
        match remove false query (docs_of w coll) with
        | Some (ds, n) => (inr n, with_docs w coll ds)
        | None => (inl unsupported, w)
        end
      else (inl unreachable, w)
  | Count_documents coll query =>
      if up w then
        match select query (docs_of w coll) with
        | Some ds => (inr (Z.of_nat (length ds)), w)
        | None => (inl unsupported, w)
        end
      else (inl unreachable, w)
  end.

(** The check of a database name and of a collection name by the driver. *)
Fixpoint has_char (c : ascii) (s : string) : bool :=
  match s with
  | EmptyString => false
  | String c' rest => Ascii.eqb c c' || has_char c rest
  end.

Fixpoint has_two_dots (s : string) : bool :=
  match s with
  | String "."%char (String "."%char _) => true
  | String _ rest => has_two_dots rest
  | EmptyString => false
  end.

Fixpoint last_char (s : string) : option ascii :=
  match s with
  | EmptyString => None
  | String c EmptyString => Some c
  | String _ rest => last_char rest
  end.

Definition first_char (s : string) : option ascii :=
  match s with
  | EmptyString => None
  | String c _ => Some c
  end.

Definition is_dot (c : option ascii) : bool :=
  match c with
  | Some c => Ascii.eqb c "."%char
  | None => false
  end.

Definition invalid_name (msg : string) : exn := PyMongoError ("InvalidName: " ++ msg).

(** A database name is not empty and holds none of the characters space,
    [.], [$], [/], backslash, NUL and the double quote. *)
Definition check_database_name (name : string) : option exn :=
  if String.eqb name "" then
    Some (invalid_name "database name cannot be the empty string")
  else if existsb (fun c => has_char c name)
            [" "%char; "."%char; "$"%char; "/"%char; "092"%char; "000"%char; "034"%char]
  then Some (invalid_name "database names cannot contain that character")
  else None.

(** A collection name is not empty, holds neither [..] nor NUL, holds [$]
    only in the two system prefixes, and neither starts nor ends with a
    dot. *)
Definition check_collection_name (name : string) : option exn :=
  if String.eqb name "" || has_two_dots name then
    Some (invalid_name "collection names cannot be empty")
  else if has_char "$"%char name
          && negb (String.prefix "oplog.$main" name || String.prefix "$cmd" name)
  then Some (invalid_name "collection names must not contain '$'")
  else if is_dot (first_char name) || is_dot (last_char name) then
    Some (invalid_name "collection names must not start or end with '.'")
  else if has_char "000"%char name then
    Some (invalid_name "collection names must not contain the null character")
  else None.

#[global] Instance engine : Engine server :=
  {| engine_step := step;
     database_name_check := check_database_name;
     collection_name_check := check_collection_name |}.

(** A server with no collection yet, answering or not. *)
Definition empty (answers : bool) : server :=
  {| colls := ∅; next_oid := 0; up := answers |}.

End Mongo.

(** ** Running a method *)

(** The state a caller starts from: nothing traced, logged or printed. *)
Definition boot {W} (w : W) : sys W :=
  {| world := w; trace := []; logs := []; stdout := [] |}.

(** The driver calls a run has added to the trace. *)
Definition new_events {W} (before after : sys W) : list event :=
  skipn (length (trace before)) (trace after).

(** ** The public methods as one interface *)

(** A call of a public method with its arguments. *)
Inductive method : Type :=
| DoCreate (data : pyval)
| DoRead (query : pyval)
| DoUpdate (query update_data : pyval) (update_many : bool)
| DoDelete (query : pyval) (delete_many : bool)
| DoCountDocuments (query : pyval)
| DoGetCollectionInfo
| DoCloseConnection
| DoSwitchCollection (new_collection_name : string)
| DoSwitchDatabase (new_database_name : string) (new_collection_name : option string)
| DoFindRescueCandidates (rescue_type : string).

Definition is_switch (m : method) : bool :=
  match m with
  | DoSwitchCollection _ | DoSwitchDatabase _ _ => true
  | _ => false
  end.

(** The result a method reports when it has had no effect. *)
Definition sentinel (m : method) : pyval :=
  match m with
  | DoCreate _ => PBool false
  | DoRead _ | DoFindRescueCandidates _ => PList []
  | DoUpdate _ _ _ | DoDelete _ _ | DoCountDocuments _ => PInt 0
  | DoGetCollectionInfo => PDict []
  | DoCloseConnection | DoSwitchCollection _ | DoSwitchDatabase _ _ => PNone
  end.

(** An argument of the wrong shape: a document given to [create] that is no
    mapping, a query given to [read] or [delete] that is neither a mapping
    nor [None], a query or a patch given to [update] that is no mapping
    ([None] is none). *)
Definition wrong_shape (m : method) : bool :=
  match m with
  | DoCreate data => negb (is_dict data)
  | DoRead query | DoDelete query _ => negb (is_dict query) && negb (is_none query)
  | DoUpdate query update_data _ => negb (is_dict query) || negb (is_dict update_data)
  | _ => false
  end.

(** The database and collection a driver call addresses. *)
Definition target (c : call) : option (Database * string) :=
  match c with
  | Insert_one coll _ | Find coll _ | Update_many coll _ _ | Update_one coll _ _
  | Delete_many coll _ | Delete_one coll _ | Count_documents coll _ =>
      Some (coll_database coll, coll_name coll)
  | Command_collStats db name => Some (db, name)
  | MongoClient _ | Command_ping _ | Close _ => None
  end.

(** The seven parameters resolved by the constructor. *)
Definition connection_config (self : MongoDBCRUD.store) : MongoDBCRUD.config :=
  {| MongoDBCRUD.cfg_username := MongoDBCRUD.username self;
     MongoDBCRUD.cfg_password := MongoDBCRUD.password self;
     MongoDBCRUD.cfg_host := MongoDBCRUD.host self;
     MongoDBCRUD.cfg_port := MongoDBCRUD.port self;
     MongoDBCRUD.cfg_database_name := MongoDBCRUD.database_name self;
     MongoDBCRUD.cfg_collection_name := MongoDBCRUD.collection_name self;
     MongoDBCRUD.cfg_auth_source := MongoDBCRUD.auth_source self |}.

(** The names [__init__] validates, after the defaults of the environment. *)
Definition resolved_database_name (getenv : string -> option string)
    (a : MongoDBCRUD.init_args) : option string :=
  por (MongoDBCRUD.arg_database_name a) (getenv "MONGO_DATABASE").

Definition resolved_collection_name (getenv : string -> option string)
    (a : MongoDBCRUD.init_args) : option string :=
  por (MongoDBCRUD.arg_collection_name a) (getenv "MONGO_COLLECTION").

Section Invoke.

Context {W : Type} `{Engine W}.

Local Open Scope py_scope.

(** A method that returns nothing, called for its result and the instance
    it leaves: [None] and the instance when it returns, its exception when
    it raises. *)
Definition returning (m : MS MongoDBCRUD.store W unit) (self : MongoDBCRUD.store)
  : M W (pyval * MongoDBCRUD.store) :=
  fun st =>
    match m self st with
    | ((Return _, self'), st') => (Return (PNone, self'), st')
    | ((Raise e, _), st') => (Raise e, st')
    end.

(** Call a method on an instance: its result and the instance afterwards. *)
Definition invoke (m : method) (self : MongoDBCRUD.store) : M W (pyval * MongoDBCRUD.store) :=
  match m with
  | DoCreate data => v <- MongoDBCRUD.create self data ;; ret (v, self)
  | DoRead query => v <- MongoDBCRUD.read self query ;; ret (v, self)
  | DoUpdate query update_data update_many =>
      v <- MongoDBCRUD.update self query update_data update_many ;; ret (v, self)
  | DoDelete query delete_many =>
      v <- MongoDBCRUD.delete self query delete_many ;; ret (v, self)
  | DoCountDocuments query => v <- MongoDBCRUD.count_documents self query ;; ret (v, self)
  | DoGetCollectionInfo => v <- MongoDBCRUD.get_collection_info self ;; ret (v, self)
  | DoCloseConnection => v <- MongoDBCRUD.close_connection self ;; ret (v, self)
  | DoSwitchCollection name => returning (MongoDBCRUD.switch_collection name) self
  | DoSwitchDatabase name coll => returning (MongoDBCRUD.switch_database name coll) self
  | DoFindRescueCandidates rescue_type =>
      v <- AnimalShelter.find_rescue_candidates self rescue_type ;; ret (v, self)
  end.

(** A caller that closes the connection [n] times in succession. *)
Fixpoint close_repeatedly (n : nat) (self : MongoDBCRUD.store) : M W (list pyval) :=
  match n with
  | O => ret []
  | S k =>
      v <- MongoDBCRUD.close_connection self ;;
      vs <- close_repeatedly k self ;;
      ret (v :: vs)
  end.

End Invoke.

(** ** Concrete instances *)

Module Examples.

Definition no_env : string -> option string := fun _ => None.

Definition no_int : string -> option Z := fun _ => None.

Definition local_client : Client :=
  {| client_uri := [Lit "mongodb://"; Lit "localhost"; Lit ":"; Num 27017] |}.

(** The instance [MongoDBCRUD(database_name="AAC", collection_name="animals")]
    yields with an empty environment. *)
Definition shelter : MongoDBCRUD.store :=
  {| MongoDBCRUD.username := None; MongoDBCRUD.password := None;
     MongoDBCRUD.host := "localhost"; MongoDBCRUD.port := 27017;
     MongoDBCRUD.database_name := "AAC"; MongoDBCRUD.collection_name := "animals";
     MongoDBCRUD.auth_source := "admin";
     MongoDBCRUD.client := local_client;
     MongoDBCRUD.database := client_getitem local_client "AAC";
     MongoDBCRUD.collection :=
       database_getitem (client_getitem local_client "AAC") "animals" |}.

(** The same instance after [switch_database("reports", "daily")]. *)
Definition reports : MongoDBCRUD.store :=
  {| MongoDBCRUD.username := None; MongoDBCRUD.password := None;
     MongoDBCRUD.host := "localhost"; MongoDBCRUD.port := 27017;
     MongoDBCRUD.database_name := "reports"; MongoDBCRUD.collection_name := "daily";
     MongoDBCRUD.auth_source := "admin";
     MongoDBCRUD.client := local_client;
     MongoDBCRUD.database := client_getitem local_client "reports";
     MongoDBCRUD.collection :=
       database_getitem (client_getitem local_client "reports") "daily" |}.

Definition shelter_args : MongoDBCRUD.init_args :=
  {| MongoDBCRUD.arg_username := None; MongoDBCRUD.arg_password := None;
     MongoDBCRUD.arg_host := None; MongoDBCRUD.arg_port := None;
     MongoDBCRUD.arg_database_name := Some "AAC";
     MongoDBCRUD.arg_collection_name := Some "animals";
     MongoDBCRUD.arg_auth_source := "admin" |}.

(** An engine that has lost its server: every call raises. *)
Definition lost : Engine unit :=
  {| engine_step := fun c w => (inl (PyMongoError "AutoReconnect: connection closed"), w);
     database_name_check := fun _ => None;
     collection_name_check := fun _ => None |}.

Definition rex : pyval := PDict [("_id", PInt 0); ("name", PStr "Rex")].

Definition newfoundland : pyval :=
  PDict [("animal_type", PStr "Dog"); ("breed", PStr "Newfoundland");
         ("age_upon_outcome_in_weeks", PInt 40)].

Definition poodle : pyval :=
  PDict [("animal_type", PStr "Dog"); ("breed", PStr "Poodle");
         ("age_upon_outcome_in_weeks", PInt 40)].

End Examples.

(** ** Predicates on instances and driver calls *)

(** The handles of an instance are the ones its two names denote. *)
Definition bound (self : MongoDBCRUD.store) : Prop :=
  MongoDBCRUD.database self
  = client_getitem (MongoDBCRUD.client self) (MongoDBCRUD.database_name self) /\
  MongoDBCRUD.collection self
  = database_getitem (MongoDBCRUD.database self) (MongoDBCRUD.collection_name self).

(** A driver call that changes a collection. *)
Definition is_write (c : call) : bool :=
  match c with
  | Insert_one _ _ | Update_many _ _ _ | Update_one _ _ _
  | Delete_many _ _ | Delete_one _ _ => true
  | _ => false
  end.

(** The methods other than [create], [update] and [delete]. *)
Definition reads_only (m : method) : bool :=
  match m with
  | DoCreate _ | DoUpdate _ _ _ | DoDelete _ _ => false
  | _ => true
  end.

(** The query [read] and [count_documents] pass on: [{}] for [None]. *)
Definition or_empty (query : pyval) : pyval :=
  if is_none query then PDict [] else query.

(** The call [update] and [delete] choose by their flag. *)
Definition update_call (many : bool) (c : Collection) (query update_data : pyval) : call :=
  if many then Update_many c query (PDict [("$set", update_data)])
  else Update_one c query (PDict [("$set", update_data)]).

Definition delete_call (many : bool) (c : Collection) (query : pyval) : call :=
  if many then Delete_many c query else Delete_one c query.

(** The queries of the table of [find_rescue_candidates]. *)
Definition rescue_queries : list pyval := map snd AnimalShelter.rescue_criteria.

(** An environment whose port is no number. *)
Definition bad_port_env : string -> option string :=
  fun name => if String.eqb name "MONGO_PORT" then Some "abc" else None.

(** * Properties *)

(** ** The trace of a run *)

Lemma new_events_app {W} (st st' : sys W) (evs : list event) :
  trace st' = (trace st ++ evs)%list -> new_events st st' = evs.
Proof.
  intros Htrace. unfold new_events. rewrite Htrace. apply drop_app_length.
Qed.

Lemma new_events_same {W} (st st' : sys W) :
  trace st' = trace st -> new_events st st' = [].
Proof.
  intros Htrace. apply new_events_app. rewrite Htrace. symmetry. apply app_nil_r.
Qed.

(** Unfold the monad down to the engine's answers. *)
Ltac run :=
  unfold invoke, AnimalShelter.find_rescue_candidates,
    MongoDBCRUD.create, MongoDBCRUD.read, MongoDBCRUD.update, MongoDBCRUD.delete,
    MongoDBCRUD.count_documents, MongoDBCRUD.close_connection,
    MongoDBCRUD.get_collection_info, MongoDBCRUD.switch_collection,
    MongoDBCRUD.switch_database, client_truthy, returning,
    bindS, lift, assign, get_self, client_subscript, database_subscript,
    try_except, bind, pymongo, logger, print, ret, raise in *;
  cbn [fst snd world trace logs stdout] in *.

Ltac ask c w :=
  let e := fresh "e" in let r := fresh "r" in let w' := fresh "w'" in
  let Hstep := fresh "Hstep" in
  destruct (engine_step c w) as [[e | r] w'] eqn:Hstep.

Ltac ask_engine :=
  match goal with
  | |- context [engine_step ?c ?w] => ask c w
  | _ : context [engine_step ?c ?w] |- _ => ask c w
  end;
  cbn [fst snd world trace logs stdout] in *.

(** The events of a run whose trace is the old one, or the old one and one
    more entry. *)
Ltac events :=
  match goal with
  | Hin : In _ (new_events ?st ?st') |- _ =>
      first
        [ rewrite (new_events_same st st') in Hin by reflexivity; destruct Hin
        | erewrite (new_events_app st st') in Hin by (cbn [trace]; reflexivity);
          destruct Hin as [<- | []]; cbn [ev_fault ev_call] in * ]
  end.

(** ** Faults of the engine are absorbed *)

(** C1, as stated, fails in its last clause: a failure that is not one of
    construction escapes.  On the reference engine [switch_collection("")],
    called on a constructed instance, raises the driver's refusal of the
    name to its caller. *)
Lemma a_switch_lets_a_refusal_escape :
  fst (invoke (DoSwitchCollection "") Examples.shelter (boot (Mongo.empty true)))
  = Raise (Mongo.invalid_name "collection names cannot be empty").
Proof.
  vm_compute. reflexivity.
Qed.

(** C1, amended: [create], [read], [update], [delete], [count_documents],
    [get_collection_info] and [close_connection], and [find_rescue_candidates]
    which goes through [read], never raise, whatever the engine does, and
    the one during which a driver call raised returns its sentinel: [False]
    for [create], the empty list for [read], [0] for [update], [delete] and
    [count_documents], the empty mapping for [get_collection_info], [None]
    for [close_connection]. *)
Theorem operations_absorb_engine_faults {W} `{Engine W}
    (m : method) (self : MongoDBCRUD.store) (st : sys W) :
  is_switch m = false ->
  (exists v, fst (invoke m self st) = Return (v, self)) /\
  (forall ev, In ev (new_events st (snd (invoke m self st))) ->
              ev_fault ev <> None ->
              fst (invoke m self st) = Return (sentinel m, self)).
Proof.
  intros Hswitch. destruct m; try discriminate; run.
  - destruct data; cbn; try (split; [eauto | intros; events]).
    ask_engine.
    + split; [eauto | reflexivity].
    + destruct (truthy r); cbn; (split; [eauto | intros; events; congruence]).
  - destruct query; cbn; try (split; [eauto | intros; events]);
      ask_engine; (split; [eauto | intros; events; congruence || reflexivity]).
  - destruct query; cbn; try (split; [eauto | intros; events]).
    destruct update_data; cbn; try (split; [eauto | intros; events]).
    destruct update_many; ask_engine;
      (split; [eauto | intros; events; congruence || reflexivity]).
  - destruct query; cbn; try (split; [eauto | intros; events]).
    destruct delete_many; ask_engine;
      (split; [eauto | intros; events; congruence || reflexivity]).
  - destruct query; cbn; try (split; [eauto | intros; events]);
      ask_engine; (split; [eauto | intros; events; congruence || reflexivity]).
  - ask_engine; (split; [eauto | intros; events; congruence || reflexivity]).
  - ask_engine; (split; [eauto | intros; events; congruence || reflexivity]).
  - destruct (dict_get rescue_type AnimalShelter.rescue_criteria) as [query |].
    + run. destruct query; cbn; try (split; [eauto | intros; events]);
        ask_engine; (split; [eauto | intros; events; congruence || reflexivity]).
    + cbn. split; [eauto | intros; events].
Qed.

Lemma operations_absorb_engine_faults_witness :
  fst (invoke (DoRead PNone) Examples.shelter (boot (Mongo.empty false)))
  = Return (PList [], Examples.shelter).
Proof.
  apply (proj2 (operations_absorb_engine_faults
                  (DoRead PNone) Examples.shelter (boot (Mongo.empty false)) eq_refl)
               {| ev_call := Find (MongoDBCRUD.collection Examples.shelter) (PDict []);
                  ev_fault := Some Mongo.unreachable |}).
  - vm_compute. left. reflexivity.
  - discriminate.
Defined.

(** ** Arguments of the wrong shape *)

(** C2: a method given an argument of the wrong shape makes no driver call
    and returns its designated result: [False] for [create], the empty list
    for [read], [0] for [update] and [delete]. *)
Theorem invalid_arguments_make_no_call {W} `{Engine W}
    (m : method) (self : MongoDBCRUD.store) (st : sys W) :
  wrong_shape m = true ->
  fst (invoke m self st) = Return (sentinel m, self) /\
  trace (snd (invoke m self st)) = trace st /\
  world (snd (invoke m self st)) = world st.
Proof.
  destruct m; cbn [wrong_shape]; try discriminate; intros Hshape; run.
  - destruct data; try discriminate; cbn; auto.
  - destruct query; try discriminate; cbn; auto.
  - destruct query, update_data; try discriminate; cbn; auto.
  - destruct query; try discriminate; cbn; auto.
Qed.

Lemma invalid_arguments_make_no_call_witness :
  fst (invoke (DoUpdate (PDict []) PNone true) Examples.shelter (boot (Mongo.empty true)))
  = Return (PInt 0, Examples.shelter) /\
  trace (snd (invoke (DoUpdate (PDict []) PNone true) Examples.shelter
                     (boot (Mongo.empty true)))) = [] /\
  world (snd (invoke (DoUpdate (PDict []) PNone true) Examples.shelter
                     (boot (Mongo.empty true)))) = Mongo.empty true.
Proof.
  apply (invalid_arguments_make_no_call
           (DoUpdate (PDict []) PNone true) Examples.shelter (boot (Mongo.empty true))).
  reflexivity.
Defined.

(** C10: [count_documents] follows the same policy: a query that is
    neither a mapping nor [None] gives [0] without a driver call, and [None]
    is counted as the empty mapping, which matches every document. *)
Theorem count_documents_argument_policy {W} `{Engine W}
    (self : MongoDBCRUD.store) (st : sys W) :
  (forall query, is_dict query = false -> is_none query = false ->
     fst (MongoDBCRUD.count_documents self query st) = Return (PInt 0) /\
     trace (snd (MongoDBCRUD.count_documents self query st)) = trace st /\
     world (snd (MongoDBCRUD.count_documents self query st)) = world st) /\
  MongoDBCRUD.count_documents self PNone st
  = MongoDBCRUD.count_documents self (PDict []) st /\
  (exists fault,
     new_events st (snd (MongoDBCRUD.count_documents self PNone st))
     = [{| ev_call := Count_documents (MongoDBCRUD.collection self) (PDict []);
           ev_fault := fault |}]).
Proof.
  split; [| split].
  - intros query Hdict Hnone. run.
    destruct query; try discriminate; cbn; auto.
  - reflexivity.
  - run. cbn [is_none is_dict]. ask_engine; eexists; apply new_events_app; reflexivity.
Qed.

Lemma count_documents_argument_policy_witness :
  fst (MongoDBCRUD.count_documents Examples.shelter (PStr "Dog") (boot (Mongo.empty true)))
  = Return (PInt 0).
Proof.
  apply (proj1 (count_documents_argument_policy Examples.shelter (boot (Mongo.empty true)))
               (PStr "Dog")); reflexivity.
Defined.

(** ** The rescue finder *)

Lemma rescue_criteria_unknown (rescue_type : string) :
  rescue_type <> "water" -> rescue_type <> "mountain" -> rescue_type <> "disaster" ->
  dict_get rescue_type AnimalShelter.rescue_criteria = None.
Proof.
  intros Hw Hm Hd. cbn.
  apply String.eqb_neq in Hw, Hm, Hd. rewrite Hw, Hm, Hd. reflexivity.
Qed.

Lemma read_leaves_a_log_record {W} `{Engine W}
    (self : MongoDBCRUD.store) (query : pyval) (st : sys W) :
  length (logs (snd (MongoDBCRUD.read self query st))) = S (length (logs st)).
Proof.
  run. destruct query; cbn; try ask_engine;
    rewrite length_app; cbn; lia.
Qed.

(** C6: for a category other than "water", "mountain" and "disaster",
    [find_rescue_candidates] returns the empty list and issues no query:
    no driver call is made, and [read], which always leaves a log record,
    is not invoked; the unknown category is printed. *)
Theorem unknown_rescue_type_runs_no_query {W} `{Engine W}
    (self : MongoDBCRUD.store) (rescue_type : string) (st : sys W) :
  rescue_type <> "water" -> rescue_type <> "mountain" -> rescue_type <> "disaster" ->
  fst (AnimalShelter.find_rescue_candidates self rescue_type st) = Return (PList []) /\
  trace (snd (AnimalShelter.find_rescue_candidates self rescue_type st)) = trace st /\
  world (snd (AnimalShelter.find_rescue_candidates self rescue_type st)) = world st /\
  logs (snd (AnimalShelter.find_rescue_candidates self rescue_type st)) = logs st /\
  stdout (snd (AnimalShelter.find_rescue_candidates self rescue_type st))
  = (stdout st ++ [[Lit "Unknown rescue type: "; Lit rescue_type]])%list.
Proof.
  intros Hw Hm Hd. unfold AnimalShelter.find_rescue_candidates.
  rewrite (rescue_criteria_unknown rescue_type Hw Hm Hd). run. auto.
Qed.

Lemma unknown_rescue_type_runs_no_query_witness :
  fst (AnimalShelter.find_rescue_candidates Examples.shelter "unknown-category"
         (boot (Mongo.empty true))) = Return (PList []) /\
  trace (snd (AnimalShelter.find_rescue_candidates Examples.shelter "unknown-category"
                (boot (Mongo.empty true)))) = [].
Proof.
  destruct (unknown_rescue_type_runs_no_query Examples.shelter "unknown-category"
              (boot (Mongo.empty true))) as (Hres & Htrace & _); try discriminate.
  split; assumption.
Defined.

(** C5: each of the three categories is mapped to the query of the stated
    criteria, and the result is that of [read] on it, unchanged: "water" to
    species Dog, the four water breeds and ages 26 to 156 weeks, "mountain"
    to species Dog, the five mountain breeds and ages 26 to 156 weeks,
    "disaster" to species Dog, the five disaster breeds and ages 20 to 300
    weeks. *)
Theorem find_rescue_candidates_criteria {W} `{Engine W}
    (self : MongoDBCRUD.store) (category : string) (c : RescueCriteria.criteria)
    (st : sys W) :
  RescueCriteria.of_category category = Some c ->
  AnimalShelter.find_rescue_candidates self category st
  = MongoDBCRUD.read self (RescueCriteria.query_of c) st.
Proof.
  unfold RescueCriteria.of_category. intros Hcat.
  destruct (String.eqb category "water") eqn:Hw.
  { apply String.eqb_eq in Hw. subst category. injection Hcat as <-. reflexivity. }
  destruct (String.eqb category "mountain") eqn:Hm.
  { apply String.eqb_eq in Hm. subst category. injection Hcat as <-. reflexivity. }
  destruct (String.eqb category "disaster") eqn:Hd.
  { apply String.eqb_eq in Hd. subst category. injection Hcat as <-. reflexivity. }
  discriminate.
Qed.

Lemma find_rescue_candidates_criteria_witness :
  AnimalShelter.find_rescue_candidates Examples.shelter "disaster" (boot (Mongo.empty true))
  = MongoDBCRUD.read Examples.shelter
      (RescueCriteria.query_of
         {| RescueCriteria.species := "Dog";
            RescueCriteria.breeds := ["Doberman Pinscher"; "German Shepherd";
                                      "Golden Retriever"; "Bloodhound"; "Rottweiler"];
            RescueCriteria.min_weeks := 20; RescueCriteria.max_weeks := 300 |})
      (boot (Mongo.empty true)).
Proof.
  apply (find_rescue_candidates_criteria Examples.shelter "disaster").
  reflexivity.
Defined.

(** ** Switching the active collection and database *)

(** The run of [switch_collection]: the name is assigned, then the driver
    refuses it or yields the handle. *)
Lemma switch_collection_run {W} `{Engine W}
    (name : string) (self : MongoDBCRUD.store) (st : sys W) :
  MongoDBCRUD.switch_collection name self st
  = match collection_name_check name with
    | Some e => ((Raise e, MongoDBCRUD.set_collection_name name self), st)
    | None =>
        ((Return tt,
          MongoDBCRUD.set_collection
            (database_getitem (MongoDBCRUD.database self) name)
            (MongoDBCRUD.set_collection_name name self)),
         {| world := world st; trace := trace st; logs := logs st;
            stdout := (stdout st ++ [[Lit "Switched to collection: "; Lit name]])%list |})
    end.
Proof.
  run. destruct (collection_name_check name); reflexivity.
Qed.

(** The run of [switch_database], with the collection name it binds: the
    one given when that is not empty, else the active one. *)
Lemma switch_database_run {W} `{Engine W}
    (name : string) (coll : option string) (self : MongoDBCRUD.store) (st : sys W) :
  MongoDBCRUD.switch_database name coll self st
  = match database_name_check name with
    | Some e => ((Raise e, MongoDBCRUD.set_database_name name self), st)
    | None =>
        let self1 :=
          MongoDBCRUD.set_database (client_getitem (MongoDBCRUD.client self) name)
            (MongoDBCRUD.set_database_name name self) in
        let self2 :=
          if str_truthy coll
          then MongoDBCRUD.set_collection_name (default "" coll) self1
          else self1 in
        match collection_name_check (MongoDBCRUD.collection_name self2) with
        | Some e => ((Raise e, self2), st)
        | None =>
            ((Return tt,
              MongoDBCRUD.set_collection
                (database_getitem (client_getitem (MongoDBCRUD.client self) name)
                                  (MongoDBCRUD.collection_name self2))
                self2),
             {| world := world st; trace := trace st; logs := logs st;
                stdout := (stdout st ++ [[Lit "Switched to database: "; Lit name; Lit ".";
                                          Lit (MongoDBCRUD.collection_name self2)]])%list |})
        end
    end.
Proof.
  run. destruct (database_name_check name); [reflexivity |].
  destruct (str_truthy coll); cbn;
    match goal with
    | |- context [collection_name_check ?n] => destruct (collection_name_check n)
    end; reflexivity.
Qed.

(** A switch makes no driver call, logs nothing and leaves the server as it
    is, whether it returns or raises. *)
Lemma switch_is_quiet {W} `{Engine W} (m : method) (self : MongoDBCRUD.store) (st : sys W) :
  is_switch m = true ->
  trace (snd (invoke m self st)) = trace st /\
  world (snd (invoke m self st)) = world st /\
  logs (snd (invoke m self st)) = logs st.
Proof.
  intros Hswitch. destruct m; try discriminate; cbn [invoke]; unfold returning.
  - rewrite switch_collection_run.
    destruct (collection_name_check new_collection_name); cbn; auto.
  - rewrite switch_database_run.
    destruct (database_name_check new_database_name); cbn; auto.
    match goal with
    | |- context [collection_name_check ?n] => destruct (collection_name_check n)
    end; cbn; auto.
Qed.

(** A method other than a switch leaves the instance as it is. *)
Lemma other_methods_keep_the_instance {W} `{Engine W}
    (m : method) (self self' : MongoDBCRUD.store) (v : pyval) (st : sys W) :
  is_switch m = false ->
  fst (invoke m self st) = Return (v, self') ->
  self' = self.
Proof.
  intros Hswitch Hret.
  destruct m; try discriminate; run;
    repeat match type of Hret with
           | context [match ?x with _ => _ end] => destruct x; cbn in Hret
           end; congruence.
Qed.

(** The instance a switch that returns leaves. *)
Lemma switch_collection_returns {W} `{Engine W}
    (name : string) (self self' : MongoDBCRUD.store) (v : pyval) (st : sys W) :
  fst (invoke (DoSwitchCollection name) self st) = Return (v, self') ->
  collection_name_check name = None /\
  self' = MongoDBCRUD.set_collection
            (database_getitem (MongoDBCRUD.database self) name)
            (MongoDBCRUD.set_collection_name name self).
Proof.
  cbn [invoke]. unfold returning. rewrite switch_collection_run.
  destruct (collection_name_check name); cbn; [discriminate |].
  intros [= _ <-]. auto.
Qed.

Lemma switch_database_returns {W} `{Engine W}
    (name : string) (coll : option string) (self self' : MongoDBCRUD.store)
    (v : pyval) (st : sys W) :
  fst (invoke (DoSwitchDatabase name coll) self st) = Return (v, self') ->
  database_name_check name = None /\
  exists bound_name,
    bound_name = (if str_truthy coll then default "" coll
                  else MongoDBCRUD.collection_name self) /\
    collection_name_check bound_name = None /\
    self' = MongoDBCRUD.set_collection
              (database_getitem (client_getitem (MongoDBCRUD.client self) name) bound_name)
              (MongoDBCRUD.set_collection_name bound_name
                 (MongoDBCRUD.set_database (client_getitem (MongoDBCRUD.client self) name)
                    (MongoDBCRUD.set_database_name name self))).
Proof.
  cbn [invoke]. unfold returning. rewrite switch_database_run.
  destruct (database_name_check name); cbn; [discriminate |].
  destruct (str_truthy coll); cbn;
    match goal with
    | |- context [collection_name_check ?n] =>
        destruct (collection_name_check n) eqn:Hname
    end; cbn; try discriminate;
    intros [= _ <-]; (split; [reflexivity |]); eexists; split; try reflexivity;
    (split; [exact Hname | reflexivity]).
Qed.

(** The driver calls of a method other than the two switches address the
    collection named by the instance, in the database bound to it. *)
Lemma calls_address_the_active_collection {W} `{Engine W}
    (m : method) (self : MongoDBCRUD.store) (st : sys W) (ev : event)
    (t : Database * string) :
  is_switch m = false ->
  MongoDBCRUD.collection self
  = database_getitem (MongoDBCRUD.database self) (MongoDBCRUD.collection_name self) ->
  In ev (new_events st (snd (invoke m self st))) ->
  target (ev_call ev) = Some t ->
  t = (MongoDBCRUD.database self, MongoDBCRUD.collection_name self).
Proof.
  intros Hswitch Hbound Hin Htarget.
  destruct m; try discriminate; run.
  - destruct data; cbn in Hin; try events.
    ask_engine; [| destruct (truthy r); cbn in Hin]; events;
      cbn in Htarget; rewrite Hbound in Htarget; cbn in Htarget; congruence.
  - destruct query; cbn in Hin; try events; ask_engine; events;
      cbn in Htarget; rewrite Hbound in Htarget; cbn in Htarget; congruence.
  - destruct query; cbn in Hin; try events.
    destruct update_data; cbn in Hin; try events.
    destruct update_many; ask_engine; events;
      cbn in Htarget; rewrite Hbound in Htarget; cbn in Htarget; congruence.
  - destruct query; cbn in Hin; try events.
    destruct delete_many; ask_engine; events;
      cbn in Htarget; rewrite Hbound in Htarget; cbn in Htarget; congruence.
  - destruct query; cbn in Hin; try events; ask_engine; events;
      cbn in Htarget; rewrite Hbound in Htarget; cbn in Htarget; congruence.
  - ask_engine; events; cbn in Htarget; congruence.
  - ask_engine; events; discriminate.
  - destruct (dict_get rescue_type AnimalShelter.rescue_criteria) as [query |].
    + run. destruct query; cbn in Hin; try events; ask_engine; events;
        cbn in Htarget; rewrite Hbound in Htarget; cbn in Htarget; congruence.
    + cbn in Hin. events.
Qed.

(** C7, as stated, fails at a name the driver refuses: on the reference
    engine [switch_collection("")] raises, after the name has been
    assigned, and leaves the instance with the collection name [""] and the
    handle of [animals]; no later method addresses a collection of that
    name. *)
Lemma switch_collection_refused :
  exists e self',
    fst (MongoDBCRUD.switch_collection "" Examples.shelter (boot (Mongo.empty true)))
    = (Raise e, self') /\
    MongoDBCRUD.collection_name self' = "" /\
    MongoDBCRUD.collection self' = MongoDBCRUD.collection Examples.shelter /\
    coll_name (MongoDBCRUD.collection self') = "animals".
Proof.
  eexists. eexists. split; [reflexivity |]. repeat split.
Qed.

(** C7, amended: for a collection name [X] the driver accepts,
    [switch_collection(X)] returns, having rebound the collection and its
    name to [X] and left the database, its name, the client and the other
    parameters as they were, without any driver call, so that the calls of
    every later method address collection [X] of the same database; for a
    database name the driver accepts, [switch_database] without a
    collection name binds the new database and, in it, the collection of
    the name that was active, when the driver accepts that name too. *)
Theorem switch_rebinds_the_active_handle {W} `{Engine W}
    (self : MongoDBCRUD.store) (X : string) (st : sys W) :
  (collection_name_check X = None ->
   exists self',
     fst (MongoDBCRUD.switch_collection X self st) = (Return tt, self') /\
     MongoDBCRUD.collection_name self' = X /\
     MongoDBCRUD.collection self' = database_getitem (MongoDBCRUD.database self) X /\
     MongoDBCRUD.database_name self' = MongoDBCRUD.database_name self /\
     MongoDBCRUD.database self' = MongoDBCRUD.database self /\
     MongoDBCRUD.client self' = MongoDBCRUD.client self /\
     trace (snd (MongoDBCRUD.switch_collection X self st)) = trace st /\
     world (snd (MongoDBCRUD.switch_collection X self st)) = world st /\
     (forall m st2 ev t,
        is_switch m = false ->
        In ev (new_events st2 (snd (invoke m self' st2))) ->
        target (ev_call ev) = Some t ->
        t = (MongoDBCRUD.database self, X))) /\
  (database_name_check X = None ->
   collection_name_check (MongoDBCRUD.collection_name self) = None ->
   exists self',
     fst (MongoDBCRUD.switch_database X None self st) = (Return tt, self') /\
     MongoDBCRUD.database_name self' = X /\
     MongoDBCRUD.database self' = client_getitem (MongoDBCRUD.client self) X /\
     MongoDBCRUD.collection_name self' = MongoDBCRUD.collection_name self /\
     MongoDBCRUD.collection self'
     = database_getitem (client_getitem (MongoDBCRUD.client self) X)
                        (MongoDBCRUD.collection_name self) /\
     MongoDBCRUD.client self' = MongoDBCRUD.client self).
Proof.
  split.
  - intros Hname. rewrite switch_collection_run, Hname.
    eexists. split; [reflexivity |]. repeat (split; [reflexivity |]).
    intros m st2 ev t Hswitch Hin Htarget.
    match type of Hin with
    | In _ (new_events _ (snd (invoke _ ?self' _))) =>
        exact (calls_address_the_active_collection m self' st2 ev t
                 Hswitch eq_refl Hin Htarget)
    end.
  - intros Hdb Hcoll. rewrite switch_database_run, Hdb. cbn. rewrite Hcoll.
    eexists. split; [reflexivity |]. repeat (split; [reflexivity |]). reflexivity.
Qed.

Lemma switch_rebinds_the_active_handle_witness :
  exists self',
    fst (MongoDBCRUD.switch_collection "outcomes" Examples.shelter (boot (Mongo.empty true)))
    = (Return tt, self') /\
    MongoDBCRUD.collection_name self' = "outcomes" /\
    MongoDBCRUD.database_name self' = "AAC" /\
    target (Find (MongoDBCRUD.collection self') (PDict []))
    = Some (MongoDBCRUD.database Examples.shelter, "outcomes").
Proof.
  assert (collection_name_check "outcomes" = None) as Haccepted by reflexivity.
  destruct (proj1 (switch_rebinds_the_active_handle Examples.shelter "outcomes"
                     (boot (Mongo.empty true))) Haccepted)
    as (self' & Hret & Hname & Hcoll & Hdbname & _ & _ & _ & _ & Hcalls).
  exists self'. split; [exact Hret |]. split; [exact Hname |].
  split; [rewrite Hdbname; reflexivity |].
  cbn [target]. apply f_equal.
  apply (Hcalls (DoRead PNone) (boot (Mongo.empty true))
           {| ev_call := Find (MongoDBCRUD.collection self') (PDict []);
              ev_fault := None |}).
  - reflexivity.
  - injection Hret as <-. vm_compute. left. reflexivity.
  - reflexivity.
Defined.

(** ** The connection parameters after construction *)




(** ** Closing the connection *)

Lemma close_connection_returns {W} `{Engine W} (self : MongoDBCRUD.store) (st : sys W) :
  fst (MongoDBCRUD.close_connection self st) = Return PNone.
Proof.
  run. ask_engine; reflexivity.
Qed.

Lemma close_repeatedly_returns {W} `{Engine W} (n : nat) (self : MongoDBCRUD.store) :
  forall st : sys W, fst (close_repeatedly n self st) = Return (repeat PNone n).
Proof.
  induction n as [| n IH]; intros st; [reflexivity |].
  cbn [close_repeatedly]. unfold bind at 1.
  pose proof (close_connection_returns self st) as Hclose.
  destruct (MongoDBCRUD.close_connection self st) as [o st1]. cbn in Hclose. subst o.
  unfold bind at 1. specialize (IH st1).
  destruct (close_repeatedly n self st1) as [o st2]. cbn in IH. subst o.
  reflexivity.
Qed.

(** C9: [close_connection] never raises: it returns [None] in every state,
    a fault of the client's [close] is caught and recorded by the logger as
    an error, and any number of calls in succession returns [None] each
    time. *)
Theorem close_connection_never_raises {W} `{Engine W}
    (self : MongoDBCRUD.store) (st : sys W) :
  fst (MongoDBCRUD.close_connection self st) = Return PNone /\
  (forall ev e,
     In ev (new_events st (snd (MongoDBCRUD.close_connection self st))) ->
     ev_fault ev = Some e ->
     logs (snd (MongoDBCRUD.close_connection self st))
     = (logs st ++ [(ERROR, [Lit "Error closing connection: "; Exn e])])%list) /\
  (forall n, fst (close_repeatedly n self st) = Return (repeat PNone n)).
Proof.
  split; [apply close_connection_returns | split].
  - intros ev e Hin Hfault. run. ask_engine; events.
    + injection Hfault as ->. reflexivity.
    + discriminate.
  - intros n. apply close_repeatedly_returns.
Qed.

Lemma close_connection_never_raises_witness :
  logs (snd (@MongoDBCRUD.close_connection unit Examples.lost Examples.shelter (boot tt)))
  = [(ERROR, [Lit "Error closing connection: ";
              Exn (PyMongoError "AutoReconnect: connection closed")])].
Proof.
  apply (proj1 (proj2 (@close_connection_never_raises unit Examples.lost
                         Examples.shelter (boot tt)))
               {| ev_call := Close (MongoDBCRUD.client Examples.shelter);
                  ev_fault := Some (PyMongoError "AutoReconnect: connection closed") |}).
  - vm_compute. left. reflexivity.
  - reflexivity.
Defined.

(** ** Construction *)

Lemma resolve_port_quiet {W} (getenv : string -> option string)
    (py_int : string -> option Z) (p : option Z) (st : sys W) :
  snd (MongoDBCRUD.resolve_port getenv py_int p st) = st /\
  ((exists n, fst (MongoDBCRUD.resolve_port getenv py_int p st) = Return n) \/
   (exists msg, fst (MongoDBCRUD.resolve_port getenv py_int p st) = Raise (ValueError msg))).
Proof.
  unfold MongoDBCRUD.resolve_port.
  destruct p as [n |]; [destruct (negb (n =? 0)) |];
    try destruct (getenv "MONGO_PORT") as [s |]; try destruct (py_int s);
    cbn; eauto.
Qed.

(** What [_connect] does with the answers of the engine. *)
Lemma connect_outcome {W} `{Engine W} (c : MongoDBCRUD.config) (st : sys W) :
  (forall ev e,
     In ev (new_events st (snd (MongoDBCRUD._connect c st))) ->
     ev_fault ev = Some e ->
     fst (MongoDBCRUD._connect c st) = Raise e /\
     In (ERROR, [Lit "Error connecting to MongoDB: "; Exn e])
        (logs (snd (MongoDBCRUD._connect c st)))) /\
  (forall self,
     fst (MongoDBCRUD._connect c st) = Return self ->
     connection_config self = c /\
     MongoDBCRUD.database self
     = client_getitem (MongoDBCRUD.client self) (MongoDBCRUD.cfg_database_name c) /\
     MongoDBCRUD.collection self
     = database_getitem (MongoDBCRUD.database self) (MongoDBCRUD.cfg_collection_name c) /\
     new_events st (snd (MongoDBCRUD._connect c st))
     = [{| ev_call := MongoClient (MongoDBCRUD.connection_string c); ev_fault := None |};
        {| ev_call := Command_ping (MongoDBCRUD.database self); ev_fault := None |}]).
Proof.
  unfold MongoDBCRUD._connect, try_except, bind, pymongo, logger, print, ret, raise,
    client_subscript, database_subscript.
  cbn [fst snd world trace logs stdout].
  destruct (engine_step (MongoClient (MongoDBCRUD.connection_string c)) (world st))
    as [[e1 | cl] w1] eqn:Hclient; cbn [fst snd world trace logs stdout].
  - split.
    + intros ev e Hin Hfault. events. injection Hfault as <-.
      split; [reflexivity |]. apply in_or_app. right. left. reflexivity.
    + discriminate.
  - destruct (database_name_check (MongoDBCRUD.cfg_database_name c)) as [e3 |];
      unfold raise, ret; cbn [fst snd world trace logs stdout];
      [split; [intros ev e Hin Hfault; events; discriminate | discriminate] |].
    destruct (collection_name_check (MongoDBCRUD.cfg_collection_name c)) as [e4 |];
      unfold raise, ret; cbn [fst snd world trace logs stdout];
      [split; [intros ev e Hin Hfault; events; discriminate | discriminate] |].
    destruct (engine_step
                (Command_ping (client_getitem cl (MongoDBCRUD.cfg_database_name c))) w1)
      as [[e2 | []] w2] eqn:Hping; cbn [fst snd world trace logs stdout].
    + split.
      * intros ev e Hin Hfault.
        erewrite new_events_app in Hin
          by (cbn [trace]; rewrite <- app_assoc; reflexivity).
        destruct Hin as [<- | [<- | []]]; [discriminate |].
        injection Hfault as <-.
        split; [reflexivity |]. apply in_or_app. right. left. reflexivity.
      * discriminate.
    + split.
      * intros ev e Hin Hfault.
        erewrite new_events_app in Hin
          by (cbn [trace]; rewrite <- app_assoc; reflexivity).
        destruct Hin as [<- | [<- | []]]; discriminate.
      * intros self Hret. injection Hret as <-. destruct c.
        repeat (split; [reflexivity |]).
        apply new_events_app. cbn [trace]. rewrite <- app_assoc. reflexivity.
Qed.

(** C3: construction fails fast.  When the database name or the collection
    name is empty after the defaults of the environment, [__init__] raises
    a [ValueError] and nothing has been attempted: no driver call, no log
    record.  When the connection or the ping raises, the exception is
    logged as an error and raised again, so no instance is returned; an
    instance is returned only after the client was built and the ping
    answered, with its handles bound to the two validated names. *)
Theorem construction_fails_fast {W} `{Engine W}
    (getenv : string -> option string) (py_int : string -> option Z)
    (a : MongoDBCRUD.init_args) (st : sys W) :
  (str_truthy (resolved_database_name getenv a) = false \/
   str_truthy (resolved_collection_name getenv a) = false ->
   (exists msg, fst (MongoDBCRUD.__init__ getenv py_int a st) = Raise (ValueError msg)) /\
   snd (MongoDBCRUD.__init__ getenv py_int a st) = st) /\
  (forall ev e,
     In ev (new_events st (snd (MongoDBCRUD.__init__ getenv py_int a st))) ->
     ev_fault ev = Some e ->
     fst (MongoDBCRUD.__init__ getenv py_int a st) = Raise e /\
     In (ERROR, [Lit "Error connecting to MongoDB: "; Exn e])
        (logs (snd (MongoDBCRUD.__init__ getenv py_int a st)))) /\
  (forall self,
     fst (MongoDBCRUD.__init__ getenv py_int a st) = Return self ->
     MongoDBCRUD.database_name self <> "" /\
     MongoDBCRUD.collection_name self <> "" /\
     MongoDBCRUD.database self
     = client_getitem (MongoDBCRUD.client self) (MongoDBCRUD.database_name self) /\
     MongoDBCRUD.collection self
     = database_getitem (MongoDBCRUD.database self) (MongoDBCRUD.collection_name self) /\
     exists uri,
       new_events st (snd (MongoDBCRUD.__init__ getenv py_int a st))
       = [{| ev_call := MongoClient uri; ev_fault := None |};
          {| ev_call := Command_ping (MongoDBCRUD.database self); ev_fault := None |}]).
Proof.
  unfold MongoDBCRUD.__init__, resolved_database_name, resolved_collection_name.
  unfold bind.
  destruct (resolve_port_quiet getenv py_int (MongoDBCRUD.arg_port a) st)
    as [Hquiet Hport].
  destruct (MongoDBCRUD.resolve_port getenv py_int (MongoDBCRUD.arg_port a) st)
    as [o st0]. cbn in Hquiet, Hport. subst st0.
  destruct Hport as [[n ->] | [msg ->]].
  - set (db := por (MongoDBCRUD.arg_database_name a) (getenv "MONGO_DATABASE")).
    set (coll := por (MongoDBCRUD.arg_collection_name a) (getenv "MONGO_COLLECTION")).
    destruct (str_truthy db) eqn:Hdb; cbn [negb].
    + destruct (str_truthy coll) eqn:Hcoll; cbn [negb].
      * match goal with
        | |- context [MongoDBCRUD._connect ?c st] =>
            destruct (connect_outcome c st) as [Hfault Hdone]
        end.
        split; [intros [? | ?]; discriminate |].
        split; [exact Hfault |].
        intros self Hret. destruct (Hdone self Hret) as (Hcfg & Hdatabase & Hcollection & Hev).
        assert (MongoDBCRUD.database_name self = default "" db) as Hdbname
            by (apply (f_equal MongoDBCRUD.cfg_database_name) in Hcfg; exact Hcfg).
        assert (MongoDBCRUD.collection_name self = default "" coll) as Hcollname
            by (apply (f_equal MongoDBCRUD.cfg_collection_name) in Hcfg; exact Hcfg).
        cbn in Hdatabase, Hcollection. rewrite Hdbname, Hcollname.
        repeat split; try assumption; try (eexists; exact Hev).
        -- destruct db as [s |]; [| discriminate]. cbn in *.
           intros ->. discriminate.
        -- destruct coll as [s |]; [| discriminate]. cbn in *.
           intros ->. discriminate.
      * cbn. split; [intros _; split; [eauto | reflexivity] |].
        split; [intros ev e Hin; events | discriminate].
    + cbn. split; [intros _; split; [eauto | reflexivity] |].
      split; [intros ev e Hin; events | discriminate].
  - cbn. split; [intros _; split; [eauto | reflexivity] |].
    split; [intros ev e Hin; events | discriminate].
Qed.

Lemma construction_fails_fast_witness :
  fst (MongoDBCRUD.__init__ Examples.no_env Examples.no_int
         {| MongoDBCRUD.arg_username := None; MongoDBCRUD.arg_password := None;
            MongoDBCRUD.arg_host := None; MongoDBCRUD.arg_port := None;
            MongoDBCRUD.arg_database_name := Some "AAC";
            MongoDBCRUD.arg_collection_name := Some "";
            MongoDBCRUD.arg_auth_source := "admin" |}
         (boot (Mongo.empty true)))
  = Raise (ValueError "Collection name is required") /\
  fst (MongoDBCRUD.__init__ Examples.no_env Examples.no_int Examples.shelter_args
         (boot (Mongo.empty false)))
  = Raise Mongo.unreachable.
Proof.
  split.
  - destruct (proj1 (construction_fails_fast Examples.no_env Examples.no_int
                       {| MongoDBCRUD.arg_username := None; MongoDBCRUD.arg_password := None;
                          MongoDBCRUD.arg_host := None; MongoDBCRUD.arg_port := None;
                          MongoDBCRUD.arg_database_name := Some "AAC";
                          MongoDBCRUD.arg_collection_name := Some "";
                          MongoDBCRUD.arg_auth_source := "admin" |}
                       (boot (Mongo.empty true))))
      as [[msg Hraise] _]; [right; reflexivity |].
    reflexivity.
  - apply (proj1 (proj2 (construction_fails_fast Examples.no_env Examples.no_int
                           Examples.shelter_args (boot (Mongo.empty false))))
                 {| ev_call := Command_ping (client_getitem Examples.local_client "AAC");
                    ev_fault := Some Mongo.unreachable |}).
    + vm_compute. right. left. reflexivity.
    + reflexivity.
Defined.

(** ** Creating a document and reading it back *)

(** [create] returns [True] exactly when [insert_one] has returned an
    [inserted_id] that is true in a condition. *)
Lemma create_returns_true_iff {W} `{Engine W}
    (self : MongoDBCRUD.store) (data : pyval) (st : sys W) :
  fst (MongoDBCRUD.create self data st) = Return (PBool true) <->
  is_dict data = true /\
  exists id,
    fst (engine_step (Insert_one (MongoDBCRUD.collection self) data) (world st)) = inr id /\
    truthy id = true.
Proof.
  run. destruct data; cbn; try (split; [discriminate | intros [? _]; discriminate]).
  ask_engine.
  - split; [discriminate | intros [_ (id & Hid & _)]; discriminate].
  - destruct (truthy r) eqn:Htruthy; cbn.
    + split; [intros _; split; [reflexivity | exists r; split; [reflexivity | assumption]] |
              reflexivity].
    + split; [discriminate |].
      intros [_ (id & Hid & Hid')]. injection Hid as <-. congruence.
Qed.

(** C4: [create] reports a stored document as a failure when its identifier
    is false in a condition.  Whatever the engine, a reply of [insert_one]
    whose [inserted_id] is not true makes [create] return [False]; on the
    reference engine, the document whose [_id] is [0] is stored, the engine
    replies with that identifier, [create] returns [False], and the document
    is then counted and read back by its identifier. *)
Theorem create_reports_a_stored_document_as_failure :
  (forall (W : Type) (E : Engine W) (self : MongoDBCRUD.store) (data : pyval)
          (st : sys W) (id : pyval),
     is_dict data = true ->
     fst (engine_step (Insert_one (MongoDBCRUD.collection self) data) (world st)) = inr id ->
     truthy id = false ->
     fst (MongoDBCRUD.create self data st) = Return (PBool false)) /\
  fst (engine_step (Insert_one (MongoDBCRUD.collection Examples.shelter) Examples.rex)
                   (Mongo.empty true))
  = inr (PInt 0) /\
  fst (MongoDBCRUD.create Examples.shelter Examples.rex (boot (Mongo.empty true)))
  = Return (PBool false) /\
  fst (MongoDBCRUD.count_documents Examples.shelter PNone
         (snd (MongoDBCRUD.create Examples.shelter Examples.rex (boot (Mongo.empty true)))))
  = Return (PInt 1) /\
  fst (MongoDBCRUD.read Examples.shelter (PDict [("_id", PInt 0)])
         (snd (MongoDBCRUD.create Examples.shelter Examples.rex (boot (Mongo.empty true)))))
  = Return (PList [Examples.rex]).
Proof.
  split.
  - intros W E self data st id Hdict Hreply Hfalsy. run.
    destruct data; try discriminate. cbn [is_none is_dict negb andb].
    ask_engine; [reflexivity |].
    cbn in Hreply. injection Hreply as ->. rewrite Hfalsy. reflexivity.
  - repeat split; vm_compute; reflexivity.
Qed.

Lemma scalar_eqb_refl (v : pyval) : Mongo.is_scalar v = true -> Mongo.pyval_eqb v v = true.
Proof.
  destruct v; cbn; try discriminate; intros _.
  - reflexivity.
  - apply Bool.eqb_reflx.
  - apply Z.eqb_refl.
  - apply String.eqb_refl.
  - apply N.eqb_refl.
Qed.

Lemma dict_get_app_fresh (k : string) (v : pyval) (fields : Mongo.document) :
  dict_get k fields = None -> dict_get k (fields ++ [(k, v)])%list = Some v.
Proof.
  induction fields as [| [k' v'] rest IH]; cbn.
  - intros _. rewrite String.eqb_refl. reflexivity.
  - destruct (String.eqb k k'); [discriminate | exact IH].
Qed.

(** A filter on a scalar [_id] compares the identifier of the document. *)
Lemma matches_by_id (id : pyval) (doc : Mongo.document) :
  Mongo.is_scalar id = true ->
  Mongo.matches (PDict [("_id", id)]) doc
  = Some (Mongo.value_eq (dict_get "_id" doc) id && true).
Proof.
  intros Hscalar. destruct id; try discriminate; reflexivity.
Qed.

Lemma select_by_id (id : pyval) (doc : Mongo.document) (docs : list Mongo.document) :
  Mongo.is_scalar id = true ->
  is_none id = false ->
  existsb Mongo.id_is_array docs = false ->
  existsb (Mongo.has_id id) docs = false ->
  dict_get "_id" doc = Some id ->
  Mongo.select (PDict [("_id", id)]) (docs ++ [doc]) = Some [doc].
Proof.
  intros Hscalar Hnone Harrays Hfresh Hid.
  induction docs as [| d rest IH].
  - cbn [app Mongo.select]. rewrite (matches_by_id id doc Hscalar), Hid.
    assert (Mongo.value_eq (Some id) id = true) as ->; [| reflexivity].
    pose proof (scalar_eqb_refl id Hscalar) as Hrefl.
    destruct id; try discriminate; exact Hrefl.
  - cbn [existsb] in Harrays, Hfresh.
    apply orb_false_elim in Harrays as [Harray Harrays].
    apply orb_false_elim in Hfresh as [Hd Hfresh].
    cbn [app Mongo.select]. rewrite (IH Harrays Hfresh), (matches_by_id id d Hscalar).
    assert (Mongo.value_eq (dict_get "_id" d) id = false) as ->; [| reflexivity].
    unfold Mongo.has_id in Hd. unfold Mongo.id_is_array, Mongo.holds_array in Harray.
    destruct (dict_get "_id" d) as [i |]; [| exact Hnone].
    destruct i; try discriminate; exact Hd.
Qed.

Lemma docs_of_with_docs (w : Mongo.server) (c : Collection) (docs : list Mongo.document) :
  Mongo.docs_of (Mongo.with_docs w c docs) c = docs.
Proof.
  unfold Mongo.docs_of, Mongo.with_docs. cbn. rewrite lookup_insert_eq. reflexivity.
Qed.

(** On the reference engine, a [create] that returns [True] is followed by
    a [read] on the confirmed identifier that returns one document: the one
    given, with that identifier. *)
Lemma create_then_read_by_id (self : MongoDBCRUD.store) (fields : Mongo.document)
    (id : pyval) (st : sys Mongo.server) :
  fst (MongoDBCRUD.create self (PDict fields) st) = Return (PBool true) ->
  fst (engine_step (Insert_one (MongoDBCRUD.collection self) (PDict fields)) (world st))
  = inr id ->
  Mongo.is_scalar id = true ->
  existsb Mongo.id_is_array (Mongo.docs_of (world st) (MongoDBCRUD.collection self)) = false ->
  fst (MongoDBCRUD.read self (PDict [("_id", id)])
         (snd (MongoDBCRUD.create self (PDict fields) st)))
  = Return (PList [PDict (Mongo.stored fields id)]).
Proof.
  intros Htrue Hreply Hscalar Harrays.
  apply create_returns_true_iff in Htrue as [_ (id' & Hreply' & Htruthy)].
  rewrite Hreply in Hreply'. injection Hreply' as <-.
  assert (is_none id = false) as Hnone by (destruct id; try discriminate; reflexivity).
  run. cbn [is_none is_dict negb andb].
  unfold engine_step, Mongo.engine, Mongo.step in *.
  destruct (Mongo.up (world st)) eqn:Hup; [| discriminate].
  unfold Mongo.insert_one in *.
  destruct (dict_get "_id" fields) as [i |] eqn:Hfield.
  - destruct (existsb (Mongo.has_id i) _) eqn:Hfresh; [discriminate |].
    cbn in Hreply. injection Hreply as ->. rewrite Htruthy.
    cbn [fst snd world trace logs stdout Mongo.up Mongo.with_docs].
    rewrite Hup, docs_of_with_docs.
    rewrite (select_by_id id fields _ Hscalar Hnone Harrays Hfresh Hfield).
    cbn. unfold Mongo.stored. rewrite Hfield. reflexivity.
  - destruct (existsb (Mongo.has_id (PObjectId (Mongo.next_oid (world st)))) _) eqn:Hfresh;
      [discriminate |].
    cbn in Hreply. injection Hreply as <-.
    cbn [fst snd world trace logs stdout truthy Mongo.up Mongo.with_docs].
    rewrite Hup.
    match goal with
    | |- context [Mongo.docs_of ?w ?c] =>
        change (Mongo.docs_of w c)
          with (Mongo.docs_of
                  (Mongo.with_docs
                     {| Mongo.colls := Mongo.colls (world st);
                        Mongo.next_oid := N.succ (Mongo.next_oid (world st));
                        Mongo.up := Mongo.up (world st) |}
                     (MongoDBCRUD.collection self)
                     (Mongo.docs_of (world st) (MongoDBCRUD.collection self)
                      ++ [(fields ++ [("_id", PObjectId (Mongo.next_oid (world st)))])%list])%list)
                  (MongoDBCRUD.collection self))
    end.
    rewrite docs_of_with_docs.
    rewrite (select_by_id _ (fields ++ [("_id", PObjectId (Mongo.next_oid (world st)))])%list
               _ Hscalar Hnone Harrays Hfresh (dict_get_app_fresh _ _ _ Hfield)).
    cbn. unfold Mongo.stored. rewrite Hfield. reflexivity.
Qed.

(** ** What the three queries select *)

Lemma value_eq_str (v : option pyval) (s : string) :
  match v with Some (PList _) => false | _ => true end = true ->
  Mongo.value_eq v (PStr s)
  = match v with Some (PStr x) => String.eqb x s | _ => false end.
Proof.
  destruct v as [[] |]; cbn; try discriminate; reflexivity.
Qed.

Lemma in_breeds (v : option pyval) (breeds : list string) :
  match v with Some (PList _) => false | _ => true end = true ->
  existsb (Mongo.value_eq v) (map PStr breeds)
  = match v with Some (PStr b) => existsb (String.eqb b) breeds | _ => false end.
Proof.
  intros Hv. induction breeds as [| b rest IH]; cbn [map existsb].
  - destruct v as [[] |]; reflexivity.
  - rewrite IH, (value_eq_str v b Hv). destruct v as [[] |]; reflexivity.
Qed.

Lemma age_within (lo hi : Z) (doc : Mongo.document) :
  Mongo.eval_expr doc
    (PDict [("$and",
             PList [PDict [("$gte", PList [PStr "$age_upon_outcome_in_weeks"; PInt lo])];
                    PDict [("$lte", PList [PStr "$age_upon_outcome_in_weeks"; PInt hi])]])])
  = Mongo.Value
      (PBool match dict_get "age_upon_outcome_in_weeks" doc with
             | Some (PInt age) => (lo <=? age) && (age <=? hi)
             | _ => false
             end).
Proof.
  cbn. destruct (dict_get "age_upon_outcome_in_weeks" doc) as [[] |]; cbn; try reflexivity.
  unfold Z.leb. rewrite (Z.compare_antisym n lo).
  destruct (n ?= lo), (n ?= hi); reflexivity.
Qed.

(** On the reference engine, a document with no array under its species and
    breed matches the query of a criterion exactly when it meets it. *)
Lemma query_of_meets (c : RescueCriteria.criteria) (doc : Mongo.document) :
  Mongo.holds_array "animal_type" doc = false ->
  Mongo.holds_array "breed" doc = false ->
  Mongo.matches (RescueCriteria.query_of c) doc = Some (RescueCriteria.meets c doc).
Proof.
  unfold Mongo.holds_array. intros Hspecies Hbreed.
  unfold RescueCriteria.query_of, Mongo.matches, Mongo.match_all, Mongo.match_entry.
  rewrite age_within.
  cbn [String.eqb Ascii.eqb Bool.eqb Mongo.is_operator Mongo.match_field].
  rewrite value_eq_str, in_breeds;
    [| destruct (dict_get "breed" doc) as [[] |]; try discriminate; reflexivity
     | destruct (dict_get "animal_type" doc) as [[] |]; try discriminate; reflexivity ].
  unfold RescueCriteria.meets.
  destruct (dict_get "animal_type" doc) as [[] |],
           (dict_get "breed" doc) as [[] |],
           (dict_get "age_upon_outcome_in_weeks" doc) as [[] |];
    cbn; rewrite ?andb_true_r, ?andb_false_r, ?andb_assoc; reflexivity.
Qed.

(** The scenario of the specification: of a Newfoundland and a Poodle of
    forty weeks, the water query returns the first only. *)
Example water_candidates_scenario :
  let st1 := snd (MongoDBCRUD.create Examples.shelter Examples.newfoundland
                    (boot (Mongo.empty true))) in
  let st2 := snd (MongoDBCRUD.create Examples.shelter Examples.poodle st1) in
  fst (AnimalShelter.find_rescue_candidates Examples.shelter "water" st2)
  = Return (PList [PDict [("animal_type", PStr "Dog"); ("breed", PStr "Newfoundland");
                          ("age_upon_outcome_in_weeks", PInt 40);
                          ("_id", PObjectId 0)]]).
Proof.
  vm_compute. reflexivity.
Qed.

(** * Further properties of the methods *)

(** ** The successful paths *)

(** X1: when [find] answers, [read] returns the documents it yielded, as
    they are and in their order, after exactly one [find] on the active
    collection with the query given ([{}] when the query is [None]), and
    logs their number; nothing is printed. *)
Theorem read_returns_what_find_yields {W} `{Engine W}
    (self : MongoDBCRUD.store) (query : pyval) (st : sys W)
    (docs : list pyval) (w' : W) :
  is_dict (or_empty query) = true ->
  engine_step (Find (MongoDBCRUD.collection self) (or_empty query)) (world st)
  = (inr docs, w') ->
  MongoDBCRUD.read self query st
  = (Return (PList docs),
     {| world := w';
        trace := (trace st ++ [{| ev_call := Find (MongoDBCRUD.collection self)
                                                  (or_empty query);
                                   ev_fault := None |}])%list;
        logs := (logs st ++ [(INFO, [Lit "Found "; Num (Z.of_nat (length docs));
                                     Lit " documents"])])%list;
        stdout := stdout st |}).
Proof.
  intros Hdict Hstep. unfold or_empty in *. run.
  destruct query; try discriminate; cbn in *; rewrite Hstep; reflexivity.
Qed.

Lemma read_returns_what_find_yields_witness :
  fst (MongoDBCRUD.read Examples.shelter PNone (boot (Mongo.empty true)))
  = Return (PList []).
Proof.
  exact (f_equal fst
           (read_returns_what_find_yields Examples.shelter PNone (boot (Mongo.empty true))
              [] (Mongo.empty true) eq_refl eq_refl)).
Defined.

(** X2: [update] with a mapping as query and a mapping as patch makes one
    call, [update_many] or [update_one] by its flag, whose update document
    is the patch under ["$set"], and returns the [modified_count] of the
    answer. *)
Theorem update_sends_a_set_patch {W} `{Engine W}
    (self : MongoDBCRUD.store) (query update_data : pyval) (st : sys W) :
  is_dict query = true ->
  is_dict update_data = true ->
  (forall n w',
     engine_step (Update_many (MongoDBCRUD.collection self) query
                              (PDict [("$set", update_data)])) (world st) = (inr n, w') ->
     fst (MongoDBCRUD.update self query update_data true st) = Return (PInt n) /\
     world (snd (MongoDBCRUD.update self query update_data true st)) = w') /\
  (forall n w',
     engine_step (Update_one (MongoDBCRUD.collection self) query
                             (PDict [("$set", update_data)])) (world st) = (inr n, w') ->
     fst (MongoDBCRUD.update self query update_data false st) = Return (PInt n) /\
     world (snd (MongoDBCRUD.update self query update_data false st)) = w') /\
  (forall many,
     map ev_call (new_events st (snd (MongoDBCRUD.update self query update_data many st)))
     = [update_call many (MongoDBCRUD.collection self) query update_data]).
Proof.
  intros Hquery Hpatch.
  destruct query; try discriminate. destruct update_data; try discriminate.
  split; [| split].
  - intros n w' Hstep. run. cbn. rewrite Hstep. cbn. auto.
  - intros n w' Hstep. run. cbn. rewrite Hstep. cbn. auto.
  - intros many. run. cbn [is_none is_dict negb andb].
    destruct many; cbn [update_call]; ask_engine;
      (erewrite new_events_app by (cbn [trace]; reflexivity)); reflexivity.
Qed.

Lemma update_sends_a_set_patch_witness :
  map ev_call
    (new_events (boot (Mongo.empty true))
       (snd (MongoDBCRUD.update Examples.shelter (PDict [("breed", PStr "Poodle")])
               (PDict [("adopted", PBool true)]) false (boot (Mongo.empty true)))))
  = [Update_one (MongoDBCRUD.collection Examples.shelter)
       (PDict [("breed", PStr "Poodle")])
       (PDict [("$set", PDict [("adopted", PBool true)])])].
Proof.
  exact (proj2 (proj2 (update_sends_a_set_patch Examples.shelter
                         (PDict [("breed", PStr "Poodle")])
                         (PDict [("adopted", PBool true)]) (boot (Mongo.empty true))
                         eq_refl eq_refl)) false).
Defined.

(** X3: [delete] with a mapping as query makes one call, [delete_many] or
    [delete_one] by its flag, with the query as it is, and returns the
    [deleted_count] of the answer. *)
Theorem delete_returns_the_deleted_count {W} `{Engine W}
    (self : MongoDBCRUD.store) (query : pyval) (st : sys W) :
  is_dict query = true ->
  (forall n w',
     engine_step (Delete_many (MongoDBCRUD.collection self) query) (world st) = (inr n, w') ->
     fst (MongoDBCRUD.delete self query true st) = Return (PInt n) /\
     world (snd (MongoDBCRUD.delete self query true st)) = w') /\
  (forall n w',
     engine_step (Delete_one (MongoDBCRUD.collection self) query) (world st) = (inr n, w') ->
     fst (MongoDBCRUD.delete self query false st) = Return (PInt n) /\
     world (snd (MongoDBCRUD.delete self query false st)) = w') /\
  (forall many,
     map ev_call (new_events st (snd (MongoDBCRUD.delete self query many st)))
     = [delete_call many (MongoDBCRUD.collection self) query]).
Proof.
  intros Hquery. destruct query; try discriminate.
  split; [| split].
  - intros n w' Hstep. run. cbn. rewrite Hstep. cbn. auto.
  - intros n w' Hstep. run. cbn. rewrite Hstep. cbn. auto.
  - intros many. run. cbn [is_none is_dict negb andb].
    destruct many; cbn [delete_call]; ask_engine;
      (erewrite new_events_app by (cbn [trace]; reflexivity)); reflexivity.
Qed.

Lemma delete_returns_the_deleted_count_witness :
  fst (MongoDBCRUD.delete Examples.shelter (PDict []) true (boot (Mongo.empty true)))
  = Return (PInt 0).
Proof.
  exact (proj1 (proj1 (delete_returns_the_deleted_count Examples.shelter (PDict [])
                         (boot (Mongo.empty true)) eq_refl)
                      0 (Mongo.with_docs (Mongo.empty true)
                           (MongoDBCRUD.collection Examples.shelter) [])
                      eq_refl)).
Defined.

(** ** What a method never does *)

(** The number of entries a run has added to the trace. *)
Ltac count_events :=
  first [ rewrite new_events_same by reflexivity
        | erewrite new_events_app by (cbn [trace]; reflexivity) ];
  cbn [length]; lia.

(** X4: no method retries: a call of a method makes at most one driver
    call, whatever the engine answers, and the two switches make none. *)
Theorem a_method_makes_at_most_one_call {W} `{Engine W}
    (m : method) (self : MongoDBCRUD.store) (st : sys W) :
  (length (new_events st (snd (invoke m self st))) <= 1)%nat /\
  (is_switch m = true -> new_events st (snd (invoke m self st)) = []).
Proof.
  split.
  - destruct (is_switch m) eqn:Hswitch;
      [rewrite new_events_same by apply (switch_is_quiet m self st Hswitch);
       cbn [length]; lia |].
    destruct m; try discriminate; run.
    + destruct data; cbn; try count_events.
      ask_engine; [| destruct (truthy r); cbn]; count_events.
    + destruct query; cbn; try count_events; ask_engine; count_events.
    + destruct query; cbn; try count_events.
      destruct update_data; cbn; try count_events.
      destruct update_many; ask_engine; count_events.
    + destruct query; cbn; try count_events.
      destruct delete_many; ask_engine; count_events.
    + destruct query; cbn; try count_events; ask_engine; count_events.
    + ask_engine; count_events.
    + ask_engine; count_events.
    + destruct (dict_get rescue_type AnimalShelter.rescue_criteria) as [query |].
      * run. destruct query; cbn; try count_events; ask_engine; count_events.
      * cbn. count_events.
  - intros Hswitch. apply new_events_same.
    apply (proj1 (switch_is_quiet m self st Hswitch)).
Qed.

(** X5: a method other than [create], [update] and [delete] makes no call
    that changes a collection: neither an insert, nor an update, nor a
    delete. *)
Theorem reading_methods_never_write {W} `{Engine W}
    (m : method) (self : MongoDBCRUD.store) (st : sys W) (ev : event) :
  reads_only m = true ->
  In ev (new_events st (snd (invoke m self st))) ->
  is_write (ev_call ev) = false.
Proof.
  intros Hreads Hin.
  destruct (is_switch m) eqn:Hswitch;
    [rewrite new_events_same in Hin by apply (switch_is_quiet m self st Hswitch);
     destruct Hin |].
  destruct m; try discriminate; run.
  - destruct query; cbn in Hin; try events; ask_engine; events; reflexivity.
  - destruct query; cbn in Hin; try events; ask_engine; events; reflexivity.
  - ask_engine; events; reflexivity.
  - ask_engine; events; reflexivity.
  - destruct (dict_get rescue_type AnimalShelter.rescue_criteria) as [query |].
    + run. destruct query; cbn in Hin; try events; ask_engine; events; reflexivity.
    + cbn in Hin. events.
Qed.

Lemma reading_methods_never_write_witness :
  is_write (Count_documents (MongoDBCRUD.collection Examples.shelter) (PDict [])) = false.
Proof.
  apply (reading_methods_never_write (DoCountDocuments PNone) Examples.shelter
           (boot (Mongo.empty true))
           {| ev_call := Count_documents (MongoDBCRUD.collection Examples.shelter) (PDict []);
              ev_fault := None |}).
  - reflexivity.
  - vm_compute. left. reflexivity.
Defined.

(** X6: the query [find_rescue_candidates] sends is never the caller's:
    every call it makes is a [find] on the active collection with one of
    the three queries of its table. *)
Theorem rescue_queries_are_fixed {W} `{Engine W}
    (self : MongoDBCRUD.store) (rescue_type : string) (st : sys W) (ev : event) :
  In ev (new_events st (snd (AnimalShelter.find_rescue_candidates self rescue_type st))) ->
  exists query,
    ev_call ev = Find (MongoDBCRUD.collection self) query /\
    In query rescue_queries /\
    dict_get rescue_type AnimalShelter.rescue_criteria = Some query.
Proof.
  intros Hin. unfold AnimalShelter.find_rescue_candidates in Hin.
  destruct (dict_get rescue_type AnimalShelter.rescue_criteria) as [query |] eqn:Hquery.
  - assert (In query rescue_queries) as Hfixed.
    { unfold rescue_queries. revert Hquery. cbn.
      repeat (destruct (String.eqb rescue_type _);
              [intros [= <-]; cbn; tauto |]).
      discriminate. }
    assert (is_dict query = true) as Hdict.
    { cbn in Hfixed. destruct Hfixed as [<- | [<- | [<- | []]]]; reflexivity. }
    exists query. split; [| split; [exact Hfixed | reflexivity]].
    run. destruct query; try discriminate. cbn in Hin. ask_engine; events; reflexivity.
  - run. events.
Qed.

Lemma rescue_queries_are_fixed_witness :
  exists query,
    Find (MongoDBCRUD.collection Examples.shelter)
         (RescueCriteria.query_of
            {| RescueCriteria.species := "Dog";
               RescueCriteria.breeds := ["German Shepherd"; "Alaskan Malamute";
                                         "Old English Sheepdog"; "Siberian Husky";
                                         "Rottweiler"];
               RescueCriteria.min_weeks := 26; RescueCriteria.max_weeks := 156 |})
    = Find (MongoDBCRUD.collection Examples.shelter) query /\
    In query rescue_queries /\
    dict_get "mountain" AnimalShelter.rescue_criteria = Some query.
Proof.
  apply (rescue_queries_are_fixed Examples.shelter "mountain" (boot (Mongo.empty true))
           {| ev_call :=
                Find (MongoDBCRUD.collection Examples.shelter)
                     (RescueCriteria.query_of
                        {| RescueCriteria.species := "Dog";
                           RescueCriteria.breeds := ["German Shepherd"; "Alaskan Malamute";
                                                     "Old English Sheepdog"; "Siberian Husky";
                                                     "Rottweiler"];
                           RescueCriteria.min_weeks := 26;
                           RescueCriteria.max_weeks := 156 |});
              ev_fault := None |}).
  vm_compute. left. reflexivity.
Defined.

(** ** The collection statistics *)

(** X7: when [collStats] answers, [get_collection_info] returns the two
    names of the instance with the [count], [size] and [avgObjSize] of the
    answer, each replaced by [0] when the answer does not hold it; the
    command is run on the database handle for the collection name. *)
Theorem collection_info_defaults_missing_statistics {W} `{Engine W}
    (self : MongoDBCRUD.store) (st : sys W) (stats : list (string * pyval)) (w' : W) :
  engine_step (Command_collStats (MongoDBCRUD.database self)
                                 (MongoDBCRUD.collection_name self)) (world st)
  = (inr stats, w') ->
  exists info,
    fst (MongoDBCRUD.get_collection_info self st) = Return (PDict info) /\
    map fst info = ["database"; "collection"; "document_count"; "size_bytes";
                    "avg_document_size"] /\
    dict_get "database" info = Some (PStr (MongoDBCRUD.database_name self)) /\
    dict_get "collection" info = Some (PStr (MongoDBCRUD.collection_name self)) /\
    dict_get "document_count" info = Some (default (PInt 0) (dict_get "count" stats)) /\
    dict_get "size_bytes" info = Some (default (PInt 0) (dict_get "size" stats)) /\
    dict_get "avg_document_size" info
    = Some (default (PInt 0) (dict_get "avgObjSize" stats)) /\
    logs (snd (MongoDBCRUD.get_collection_info self st)) = logs st /\
    stdout (snd (MongoDBCRUD.get_collection_info self st)) = stdout st.
Proof.
  intros Hstep. run. rewrite Hstep. cbn [fst snd world trace logs stdout].
  eexists. split; [reflexivity |].
  unfold get_default.
  repeat split; cbn; try reflexivity;
    match goal with
    | |- context [dict_get ?k stats] => destruct (dict_get k stats); reflexivity
    end.
Qed.

Lemma collection_info_defaults_missing_statistics_witness :
  exists info,
    fst (MongoDBCRUD.get_collection_info Examples.shelter (boot (Mongo.empty true)))
    = Return (PDict info) /\
    dict_get "document_count" info = Some (PInt 0) /\
    dict_get "size_bytes" info = Some (PInt 0).
Proof.
  assert (engine_step (Command_collStats (MongoDBCRUD.database Examples.shelter)
                                         (MongoDBCRUD.collection_name Examples.shelter))
                      (world (boot (Mongo.empty true)))
          = (inr [("ns", PStr "AAC.animals"); ("count", PInt 0)], Mongo.empty true))
    as Hstats by (vm_compute; reflexivity).
  destruct (collection_info_defaults_missing_statistics Examples.shelter
              (boot (Mongo.empty true))
              [("ns", PStr "AAC.animals"); ("count", PInt 0)] (Mongo.empty true) Hstats)
    as (info & Hret & _ & _ & _ & Hcount & Hsize & _).
  exists info. repeat split; assumption.
Defined.

(** ** The handles and the names of an instance *)

(** X8: the handles of an instance stay the ones its names denote through
    every call that returns: a method called on an instance whose database
    handle is [client[database_name]] and whose collection handle is
    [database[collection_name]], and which returns, leaves an instance of
    which the same holds, so that [get_collection_info], which goes by the
    name, and the other methods, which go by the handle, address the same
    collection. *)
Theorem methods_keep_the_handles_bound {W} `{Engine W}
    (m : method) (self self' : MongoDBCRUD.store) (v : pyval) (st : sys W) :
  bound self ->
  fst (invoke m self st) = Return (v, self') ->
  bound self' /\
  target (Command_collStats (MongoDBCRUD.database self')
                            (MongoDBCRUD.collection_name self'))
  = target (Find (MongoDBCRUD.collection self') PNone).
Proof.
  intros [Hdb Hcoll] Hret.
  assert (bound self') as Hbound.
  { destruct (is_switch m) eqn:Hswitch.
    - destruct m; try discriminate.
      + apply switch_collection_returns in Hret as [_ ->].
        unfold bound; cbn. split; [exact Hdb | reflexivity].
      + apply switch_database_returns in Hret as [_ (bound_name & _ & _ & ->)].
        unfold bound; cbn. split; reflexivity.
    - rewrite (other_methods_keep_the_instance m self self' v st Hswitch Hret).
      split; assumption. }
  split; [exact Hbound |].
  destruct Hbound as [_ Hcoll']. cbn [target]. rewrite Hcoll'. reflexivity.
Qed.

Lemma methods_keep_the_handles_bound_witness :
  bound Examples.reports.
Proof.
  assert (fst (invoke (DoSwitchDatabase "reports" (Some "daily")) Examples.shelter
                 (boot (Mongo.empty true))) = Return (PNone, Examples.reports)) as Hret
      by (vm_compute; reflexivity).
  apply (methods_keep_the_handles_bound (DoSwitchDatabase "reports" (Some "daily"))
           Examples.shelter Examples.reports PNone (boot (Mongo.empty true))).
  - split; reflexivity.
  - exact Hret.
Defined.

(** X9: [switch_database] takes an empty collection name for an omitted
    one: it then runs exactly as without a name; given a database name and
    a collection name that is not empty, both of which the driver accepts,
    it returns with that collection name active, in the new database, and
    prints the two names. *)
Theorem switch_database_collection_argument {W} `{Engine W}
    (self : MongoDBCRUD.store) (name : string) (st : sys W) :
  MongoDBCRUD.switch_database name (Some "") self st
  = MongoDBCRUD.switch_database name None self st /\
  (forall coll,
     coll <> "" ->
     database_name_check name = None ->
     collection_name_check coll = None ->
     exists self',
       fst (MongoDBCRUD.switch_database name (Some coll) self st) = (Return tt, self') /\
       MongoDBCRUD.database_name self' = name /\
       MongoDBCRUD.collection_name self' = coll /\
       MongoDBCRUD.collection self'
       = database_getitem (client_getitem (MongoDBCRUD.client self) name) coll /\
       stdout (snd (MongoDBCRUD.switch_database name (Some coll) self st))
       = (stdout st ++ [[Lit "Switched to database: "; Lit name; Lit "."; Lit coll]])%list).
Proof.
  split; [reflexivity |].
  intros coll Hcoll Hdb Hname. apply String.eqb_neq in Hcoll.
  rewrite switch_database_run, Hdb. unfold str_truthy. rewrite Hcoll. cbn.
  rewrite Hname. eexists. split; [reflexivity |]. cbn. repeat split.
Qed.

(** X10: switching composes by the last name given, among names the driver
    accepts: two [switch_collection] in a row leave the instance of the
    second alone, and [switch_database] followed by [switch_collection]
    leaves the instance of [switch_database] with that collection name,
    when the name that was active passes the driver's check as well. *)
Theorem switching_keeps_the_last_name {W} `{Engine W}
    (self : MongoDBCRUD.store) (X Y db : string) (st : sys W) :
  collection_name_check X = None ->
  (collection_name_check Y = None ->
   fst (bindS (MongoDBCRUD.switch_collection Y)
              (fun _ => MongoDBCRUD.switch_collection X) self st)
   = fst (MongoDBCRUD.switch_collection X self st)) /\
  (X <> "" ->
   database_name_check db = None ->
   collection_name_check (MongoDBCRUD.collection_name self) = None ->
   fst (bindS (MongoDBCRUD.switch_database db None)
              (fun _ => MongoDBCRUD.switch_collection X) self st)
   = fst (MongoDBCRUD.switch_database db (Some X) self st)).
Proof.
  intros HX. split.
  - intros HY. unfold bindS.
    rewrite (switch_collection_run Y self st), HY. cbn beta iota.
    rewrite !switch_collection_run, HX. reflexivity.
  - intros Hne Hdb Hold. apply String.eqb_neq in Hne.
    unfold bindS.
    rewrite (switch_database_run db None self st), Hdb.
    cbn [str_truthy MongoDBCRUD.collection_name MongoDBCRUD.set_database
         MongoDBCRUD.set_database_name].
    rewrite Hold. cbn beta iota.
    rewrite switch_collection_run, HX.
    rewrite switch_database_run, Hdb. unfold str_truthy. rewrite Hne.
    cbn. rewrite HX. reflexivity.
Qed.

Lemma switching_keeps_the_last_name_witness :
  fst (bindS (MongoDBCRUD.switch_database "reports" None)
             (fun _ => MongoDBCRUD.switch_collection "daily") Examples.shelter
             (boot (Mongo.empty true)))
  = (Return tt, Examples.reports).
Proof.
  assert (collection_name_check "daily" = None) as Hdaily by reflexivity.
  assert (database_name_check "reports" = None) as Hreports by reflexivity.
  assert (collection_name_check (MongoDBCRUD.collection_name Examples.shelter) = None)
    as Hanimals by reflexivity.
  rewrite (proj2 (switching_keeps_the_last_name Examples.shelter "daily" "animals" "reports"
                    (boot (Mongo.empty true)) Hdaily)
                 ltac:(discriminate) Hreports Hanimals).
  vm_compute. reflexivity.
Defined.


(** ** Closing, faults and rejected arguments *)

Lemma close_connection_trace {W} `{Engine W} (self : MongoDBCRUD.store) (st : sys W) :
  exists fault,
    trace (snd (MongoDBCRUD.close_connection self st))
    = (trace st ++ [{| ev_call := Close (MongoDBCRUD.client self); ev_fault := fault |}])%list.
Proof.
  run. ask_engine; eexists; reflexivity.
Qed.

Lemma close_repeatedly_trace {W} `{Engine W} (n : nat) (self : MongoDBCRUD.store) :
  forall st : sys W,
    exists evs,
      trace (snd (close_repeatedly n self st)) = (trace st ++ evs)%list /\
      map ev_call evs = repeat (Close (MongoDBCRUD.client self)) n.
Proof.
  induction n as [| n IH]; intros st.
  - exists []. split; [symmetry; apply app_nil_r | reflexivity].
  - cbn [close_repeatedly]. unfold bind at 1.
    destruct (close_connection_trace self st) as [fault Hone].
    pose proof (close_connection_returns self st) as Hret.
    destruct (MongoDBCRUD.close_connection self st) as [o st1].
    cbn [fst snd] in Hone, Hret. subst o.
    unfold bind at 1. destruct (IH st1) as (evs & Htrace & Hcalls).
    pose proof (close_repeatedly_returns n self st1) as Hrest.
    destruct (close_repeatedly n self st1) as [o st2].
    cbn [fst snd] in Htrace, Hrest. subst o. cbn [ret fst snd].
    exists ({| ev_call := Close (MongoDBCRUD.client self); ev_fault := fault |} :: evs).
    split.
    + rewrite Htrace, Hone, <- app_assoc. reflexivity.
    + cbn [map repeat ev_call]. rewrite Hcalls. reflexivity.
Qed.

(** X11: [close_connection] keeps no record of having closed: [n] calls in
    succession make [n] calls of [close] on the same client, whatever the
    earlier ones answered. *)
Theorem every_close_reaches_the_client {W} `{Engine W}
    (n : nat) (self : MongoDBCRUD.store) (st : sys W) :
  map ev_call (new_events st (snd (close_repeatedly n self st)))
  = repeat (Close (MongoDBCRUD.client self)) n.
Proof.
  destruct (close_repeatedly_trace n self st) as (evs & Htrace & Hcalls).
  rewrite (new_events_app st _ evs Htrace). exact Hcalls.
Qed.

(** X12: a fault that a method absorbs is not lost: the method during which
    a driver call has raised [e] appends one record to the log, at level
    ERROR, that carries [e]. *)
Theorem an_absorbed_fault_is_logged {W} `{Engine W}
    (m : method) (self : MongoDBCRUD.store) (st : sys W) (ev : event) (e : exn) :
  In ev (new_events st (snd (invoke m self st))) ->
  ev_fault ev = Some e ->
  exists text,
    logs (snd (invoke m self st)) = (logs st ++ [(ERROR, [Lit text; Exn e])])%list.
Proof.
  intros Hin Hfault.
  destruct (is_switch m) eqn:Hswitch;
    [rewrite new_events_same in Hin by apply (switch_is_quiet m self st Hswitch);
     destruct Hin |].
  destruct m; try discriminate; run.
  - destruct data; cbn in Hin |- *; try events.
    ask_engine; [| destruct (truthy r); cbn in Hin |- *]; events;
      try discriminate; injection Hfault as ->; eexists; reflexivity.
  - destruct query; cbn in Hin |- *; try events; ask_engine; events;
      try discriminate; injection Hfault as ->; eexists; reflexivity.
  - destruct query; cbn in Hin |- *; try events.
    destruct update_data; cbn in Hin |- *; try events.
    destruct update_many; ask_engine; events;
      try discriminate; injection Hfault as ->; eexists; reflexivity.
  - destruct query; cbn in Hin |- *; try events.
    destruct delete_many; ask_engine; events;
      try discriminate; injection Hfault as ->; eexists; reflexivity.
  - destruct query; cbn in Hin |- *; try events; ask_engine; events;
      try discriminate; injection Hfault as ->; eexists; reflexivity.
  - ask_engine; events; try discriminate; injection Hfault as ->; eexists; reflexivity.
  - ask_engine; events; try discriminate; injection Hfault as ->; eexists; reflexivity.
  - destruct (dict_get rescue_type AnimalShelter.rescue_criteria) as [query |].
    + run. destruct query; cbn in Hin |- *; try events; ask_engine; events;
        try discriminate; injection Hfault as ->; eexists; reflexivity.
    + cbn in Hin. events.
Qed.

Lemma an_absorbed_fault_is_logged_witness :
  exists text,
    logs (snd (@invoke unit Examples.lost DoGetCollectionInfo Examples.shelter (boot tt)))
    = [(ERROR, [Lit text; Exn (PyMongoError "AutoReconnect: connection closed")])].
Proof.
  apply (@an_absorbed_fault_is_logged unit Examples.lost DoGetCollectionInfo
           Examples.shelter (boot tt)
           {| ev_call := Command_collStats (MongoDBCRUD.database Examples.shelter) "animals";
              ev_fault := Some (PyMongoError "AutoReconnect: connection closed") |}).
  - vm_compute. left. reflexivity.
  - reflexivity.
Defined.


(** ** The parameters of a constructed instance *)

(** The port [__init__] settles on, when it settles on one. *)
Lemma resolve_port_value {W} (getenv : string -> option string)
    (py_int : string -> option Z) (p : option Z) (st : sys W) (n : Z) :
  fst (MongoDBCRUD.resolve_port getenv py_int p st) = Return n ->
  (exists q, p = Some q /\ q <> 0 /\ n = q) \/
  ((p = None \/ p = Some 0) /\
   ((getenv "MONGO_PORT" = None /\ n = 27017) \/
    (exists s, getenv "MONGO_PORT" = Some s /\ py_int s = Some n))).
Proof.
  unfold MongoDBCRUD.resolve_port.
  destruct p as [q |].
  - destruct (q =? 0) eqn:Hq; cbn [negb].
    + apply Z.eqb_eq in Hq. subst q.
      destruct (getenv "MONGO_PORT") as [s |]; [destruct (py_int s) eqn:Hs |]; cbn;
        intros [=]; subst; right; split; eauto.
    + apply Z.eqb_neq in Hq. cbn. intros [= <-]. left. eauto.
  - destruct (getenv "MONGO_PORT") as [s |]; [destruct (py_int s) eqn:Hs |]; cbn;
      intros [=]; subst; right; split; eauto.
Qed.

(** What holds of an instance [__init__] has returned. *)
Lemma init_returns {W} `{Engine W}
    (getenv : string -> option string) (py_int : string -> option Z)
    (a : MongoDBCRUD.init_args) (st : sys W) (self : MongoDBCRUD.store) :
  fst (MongoDBCRUD.__init__ getenv py_int a st) = Return self ->
  exists n,
    fst (MongoDBCRUD.resolve_port getenv py_int (MongoDBCRUD.arg_port a) st) = Return n /\
    str_truthy (resolved_database_name getenv a) = true /\
    str_truthy (resolved_collection_name getenv a) = true /\
    connection_config self
    = {| MongoDBCRUD.cfg_username :=
           por (MongoDBCRUD.arg_username a) (getenv "MONGO_USERNAME");
         MongoDBCRUD.cfg_password :=
           por (MongoDBCRUD.arg_password a) (getenv "MONGO_PASSWORD");
         MongoDBCRUD.cfg_host :=
           if str_truthy (MongoDBCRUD.arg_host a)
           then default "" (MongoDBCRUD.arg_host a)
           else default "localhost" (getenv "MONGO_HOST");
         MongoDBCRUD.cfg_port := n;
         MongoDBCRUD.cfg_database_name := default "" (resolved_database_name getenv a);
         MongoDBCRUD.cfg_collection_name :=
           default "" (resolved_collection_name getenv a);
         MongoDBCRUD.cfg_auth_source := MongoDBCRUD.arg_auth_source a |} /\
    new_events st (snd (MongoDBCRUD.__init__ getenv py_int a st))
    = [{| ev_call := MongoClient (MongoDBCRUD.connection_string (connection_config self));
          ev_fault := None |};
       {| ev_call := Command_ping (MongoDBCRUD.database self); ev_fault := None |}].
Proof.
  unfold MongoDBCRUD.__init__, resolved_database_name, resolved_collection_name,
    MongoDBCRUD.getenv_default.
  unfold bind.
  destruct (resolve_port_quiet getenv py_int (MongoDBCRUD.arg_port a) st)
    as [Hquiet Hport].
  destruct (MongoDBCRUD.resolve_port getenv py_int (MongoDBCRUD.arg_port a) st)
    as [o st0]. cbn in Hquiet, Hport. subst st0.
  destruct Hport as [[n ->] | [msg ->]]; [| discriminate].
  destruct (str_truthy (por (MongoDBCRUD.arg_database_name a) (getenv "MONGO_DATABASE")));
    cbn [negb]; [| discriminate].
  destruct (str_truthy (por (MongoDBCRUD.arg_collection_name a)
                            (getenv "MONGO_COLLECTION")));
    cbn [negb]; [| discriminate].
  intros Hret. exists n.
  match type of Hret with
  | fst (MongoDBCRUD._connect ?c st) = _ =>
      destruct (proj2 (connect_outcome c st) self Hret) as (Hcfg & _ & _ & Hev)
  end.
  repeat (split; [reflexivity |]). split.
  - rewrite Hcfg. unfold default; reflexivity.
  - rewrite Hev, Hcfg. reflexivity.
Qed.

(** X14: the parameters of a constructed instance are the arguments where
    they are given and not empty, else the variables of the environment,
    else the defaults: [localhost] for the host, the argument itself for the
    authentication source; the client is made from the connection string of
    those parameters, which names no credentials unless both a user name
    and a password are set. *)
Theorem construction_resolves_the_parameters {W} `{Engine W}
    (getenv : string -> option string) (py_int : string -> option Z)
    (a : MongoDBCRUD.init_args) (st : sys W) (self : MongoDBCRUD.store) :
  fst (MongoDBCRUD.__init__ getenv py_int a st) = Return self ->
  MongoDBCRUD.username self = por (MongoDBCRUD.arg_username a) (getenv "MONGO_USERNAME") /\
  MongoDBCRUD.password self = por (MongoDBCRUD.arg_password a) (getenv "MONGO_PASSWORD") /\
  MongoDBCRUD.host self
  = (if str_truthy (MongoDBCRUD.arg_host a) then default "" (MongoDBCRUD.arg_host a)
     else default "localhost" (getenv "MONGO_HOST")) /\
  MongoDBCRUD.auth_source self = MongoDBCRUD.arg_auth_source a /\
  Some (MongoDBCRUD.database_name self) = resolved_database_name getenv a /\
  Some (MongoDBCRUD.collection_name self) = resolved_collection_name getenv a /\
  (exists ping,
     new_events st (snd (MongoDBCRUD.__init__ getenv py_int a st))
     = [{| ev_call := MongoClient (MongoDBCRUD.connection_string (connection_config self));
           ev_fault := None |}; ping]) /\
  (str_truthy (MongoDBCRUD.username self) && str_truthy (MongoDBCRUD.password self) = false ->
   MongoDBCRUD.connection_string (connection_config self)
   = [Lit "mongodb://"; Lit (MongoDBCRUD.host self); Lit ":"; Num (MongoDBCRUD.port self)]).
Proof.
  intros Hret.
  destruct (init_returns getenv py_int a st self Hret)
    as (n & _ & Hdb & Hcoll & Hcfg & Hev).
  pose proof (f_equal MongoDBCRUD.cfg_username Hcfg) as Huser.
  pose proof (f_equal MongoDBCRUD.cfg_password Hcfg) as Hpassword.
  pose proof (f_equal MongoDBCRUD.cfg_host Hcfg) as Hhost.
  pose proof (f_equal MongoDBCRUD.cfg_auth_source Hcfg) as Hauth.
  pose proof (f_equal MongoDBCRUD.cfg_database_name Hcfg) as Hdbname.
  pose proof (f_equal MongoDBCRUD.cfg_collection_name Hcfg) as Hcollname.
  cbn in Huser, Hpassword, Hhost, Hauth, Hdbname, Hcollname.
  repeat (split; [assumption |]).
  split.
  { rewrite Hdbname. destruct (resolved_database_name getenv a); [reflexivity | discriminate]. }
  split.
  { rewrite Hcollname.
    destruct (resolved_collection_name getenv a); [reflexivity | discriminate]. }
  split; [eexists; exact Hev |].
  intros Hnone. unfold MongoDBCRUD.connection_string. cbn. rewrite Hnone. reflexivity.
Qed.

Lemma construction_resolves_the_parameters_witness :
  MongoDBCRUD.host Examples.shelter = "localhost" /\
  Some (MongoDBCRUD.database_name Examples.shelter) = Some "AAC".
Proof.
  assert (fst (MongoDBCRUD.__init__ Examples.no_env Examples.no_int Examples.shelter_args
                 (boot (Mongo.empty true))) = Return Examples.shelter) as Hret
      by (vm_compute; reflexivity).
  destruct (construction_resolves_the_parameters Examples.no_env Examples.no_int
              Examples.shelter_args (boot (Mongo.empty true)) Examples.shelter Hret)
    as (_ & _ & Hhost & _ & Hdb & _).
  split; [exact Hhost | exact Hdb].
Defined.

(** X15: the port of a constructed instance is the argument when it is not
    [0]; when it is omitted or [0], it is the number [MONGO_PORT] reads as,
    or [27017] when that variable is not set. *)
Theorem construction_resolves_the_port {W} `{Engine W}
    (getenv : string -> option string) (py_int : string -> option Z)
    (a : MongoDBCRUD.init_args) (st : sys W) (self : MongoDBCRUD.store) :
  fst (MongoDBCRUD.__init__ getenv py_int a st) = Return self ->
  (forall p, MongoDBCRUD.arg_port a = Some p -> p <> 0 -> MongoDBCRUD.port self = p) /\
  (MongoDBCRUD.arg_port a = None \/ MongoDBCRUD.arg_port a = Some 0 ->
   getenv "MONGO_PORT" = None -> MongoDBCRUD.port self = 27017) /\
  (MongoDBCRUD.arg_port a = None \/ MongoDBCRUD.arg_port a = Some 0 ->
   forall s, getenv "MONGO_PORT" = Some s -> py_int s = Some (MongoDBCRUD.port self)).
Proof.
  intros Hret.
  destruct (init_returns getenv py_int a st self Hret) as (n & Hport & _ & _ & Hcfg & _).
  pose proof (f_equal MongoDBCRUD.cfg_port Hcfg) as Hn. cbn in Hn. subst n.
  apply resolve_port_value in Hport.
  split; [| split].
  - intros p Hp Hnz.
    destruct Hport as [(q & Hq & _ & ->) | [[Hq | Hq] _]]; congruence.
  - intros Harg Henv.
    destruct Hport as [(q & Hq & Hnz & _) | [_ [[_ ->] | (s & Hs & _)]]];
      [destruct Harg; congruence | reflexivity | congruence].
  - intros Harg s Henv.
    destruct Hport as [(q & Hq & Hnz & _) | [_ [[Hs _] | (s' & Hs & Hint)]]];
      [destruct Harg; congruence | congruence |].
    rewrite Henv in Hs. injection Hs as <-. exact Hint.
Qed.

Lemma construction_resolves_the_port_witness :
  MongoDBCRUD.port Examples.shelter = 27017.
Proof.
  assert (fst (MongoDBCRUD.__init__ Examples.no_env Examples.no_int Examples.shelter_args
                 (boot (Mongo.empty true))) = Return Examples.shelter) as Hret
      by (vm_compute; reflexivity).
  apply (proj1 (proj2 (construction_resolves_the_port Examples.no_env Examples.no_int
                         Examples.shelter_args (boot (Mongo.empty true))
                         Examples.shelter Hret)));
    [left |]; reflexivity.
Defined.

(** X16: a port variable that is no number stops construction, although
    both names are valid, when the port argument is omitted or [0]:
    [__init__] raises a [ValueError] and nothing has been attempted; with a
    port argument other than [0] the reading of the variable plays no
    part. *)
Theorem an_unreadable_port_stops_construction {W} `{Engine W}
    (getenv : string -> option string) (py_int : string -> option Z)
    (a : MongoDBCRUD.init_args) (st : sys W) (s : string) :
  getenv "MONGO_PORT" = Some s ->
  py_int s = None ->
  (MongoDBCRUD.arg_port a = None \/ MongoDBCRUD.arg_port a = Some 0 ->
   (exists msg, fst (MongoDBCRUD.__init__ getenv py_int a st) = Raise (ValueError msg)) /\
   snd (MongoDBCRUD.__init__ getenv py_int a st) = st) /\
  (forall p py_int', MongoDBCRUD.arg_port a = Some p -> p <> 0 ->
     MongoDBCRUD.__init__ getenv py_int a st
     = MongoDBCRUD.__init__ getenv py_int' a st).
Proof.
  intros Henv Hint. unfold MongoDBCRUD.__init__, MongoDBCRUD.resolve_port, bind.
  split.
  - intros [-> | ->]; cbn; rewrite Henv, Hint; cbn; eauto.
  - intros p py_int' -> Hp. apply Z.eqb_neq in Hp. rewrite Hp. reflexivity.
Qed.

Lemma an_unreadable_port_stops_construction_witness :
  (exists msg,
     fst (MongoDBCRUD.__init__ bad_port_env Examples.no_int Examples.shelter_args
            (boot (Mongo.empty true))) = Raise (ValueError msg)) /\
  snd (MongoDBCRUD.__init__ bad_port_env Examples.no_int Examples.shelter_args
         (boot (Mongo.empty true))) = boot (Mongo.empty true).
Proof.
  apply (proj1 (an_unreadable_port_stops_construction bad_port_env Examples.no_int
                  Examples.shelter_args (boot (Mongo.empty true)) "abc" eq_refl eq_refl)).
  left. reflexivity.
Defined.

(** X17: the database name is validated before the collection name: once
    the port is settled, an empty database name raises "Database name is
    required" whatever the collection name is, and an empty collection name
    raises "Collection name is required" only beside a database name that
    is not empty. *)
Theorem the_database_name_is_checked_first {W} `{Engine W}
    (getenv : string -> option string) (py_int : string -> option Z)
    (a : MongoDBCRUD.init_args) (st : sys W) (n : Z) :
  fst (MongoDBCRUD.resolve_port getenv py_int (MongoDBCRUD.arg_port a) st) = Return n ->
  (str_truthy (resolved_database_name getenv a) = false ->
   MongoDBCRUD.__init__ getenv py_int a st
   = (Raise (ValueError "Database name is required"), st)) /\
  (str_truthy (resolved_database_name getenv a) = true ->
   str_truthy (resolved_collection_name getenv a) = false ->
   MongoDBCRUD.__init__ getenv py_int a st
   = (Raise (ValueError "Collection name is required"), st)).
Proof.
  intros Hport.
  unfold MongoDBCRUD.__init__, resolved_database_name, resolved_collection_name, bind.
  destruct (resolve_port_quiet getenv py_int (MongoDBCRUD.arg_port a) st) as [Hquiet _].
  destruct (MongoDBCRUD.resolve_port getenv py_int (MongoDBCRUD.arg_port a) st)
    as [o st0]. cbn in Hquiet, Hport. subst st0 o.
  split.
  - intros ->. reflexivity.
  - intros -> ->. reflexivity.
Qed.

Lemma the_database_name_is_checked_first_witness :
  MongoDBCRUD.__init__ Examples.no_env Examples.no_int
    {| MongoDBCRUD.arg_username := None; MongoDBCRUD.arg_password := None;
       MongoDBCRUD.arg_host := None; MongoDBCRUD.arg_port := Some 27017;
       MongoDBCRUD.arg_database_name := None;
       MongoDBCRUD.arg_collection_name := None;
       MongoDBCRUD.arg_auth_source := "admin" |}
    (boot (Mongo.empty true))
  = (Raise (ValueError "Database name is required"), boot (Mongo.empty true)).
Proof.
  apply (proj1 (the_database_name_is_checked_first Examples.no_env Examples.no_int
                  {| MongoDBCRUD.arg_username := None; MongoDBCRUD.arg_password := None;
                     MongoDBCRUD.arg_host := None; MongoDBCRUD.arg_port := Some 27017;
                     MongoDBCRUD.arg_database_name := None;
                     MongoDBCRUD.arg_collection_name := None;
                     MongoDBCRUD.arg_auth_source := "admin" |}
                  (boot (Mongo.empty true)) 27017 eq_refl));
    reflexivity.
Defined.

(** X18: [AnimalShelter] always authenticates against [admin], and its
    declared defaults are not overridden by the environment: an instance
    constructed with them is on database [AAC], collection [animals], and
    its client is made with the credentials of the defaults. *)
Theorem shelter_defaults_are_not_overridden {W} `{Engine W}
    (getenv : string -> option string) (py_int : string -> option Z)
    (a : AnimalShelter.init_args) (st : sys W) (self : MongoDBCRUD.store) :
  fst (AnimalShelter.__init__ getenv py_int a st) = Return self ->
  MongoDBCRUD.auth_source self = "admin" /\
  (a = AnimalShelter.defaults ->
   MongoDBCRUD.database_name self = "AAC" /\
   MongoDBCRUD.collection_name self = "animals" /\
   MongoDBCRUD.username self = Some "aacuser" /\
   MongoDBCRUD.password self = Some "SNHU1234" /\
   exists ping,
     new_events st (snd (AnimalShelter.__init__ getenv py_int a st))
     = [{| ev_call :=
             MongoClient [Lit "mongodb://"; Lit "aacuser"; Lit ":"; Lit "SNHU1234";
                          Lit "@"; Lit (MongoDBCRUD.host self); Lit ":";
                          Num (MongoDBCRUD.port self); Lit "/?authSource="; Lit "admin"];
           ev_fault := None |}; ping]).
Proof.
  unfold AnimalShelter.__init__. intros Hret.
  destruct (init_returns getenv py_int _ st self Hret) as (n & _ & _ & _ & Hcfg & Hev).
  pose proof (f_equal MongoDBCRUD.cfg_auth_source Hcfg) as Hauth. cbn in Hauth.
  split; [exact Hauth |].
  intros ->.
  pose proof (f_equal MongoDBCRUD.cfg_username Hcfg) as Huser.
  pose proof (f_equal MongoDBCRUD.cfg_password Hcfg) as Hpassword.
  pose proof (f_equal MongoDBCRUD.cfg_database_name Hcfg) as Hdb.
  pose proof (f_equal MongoDBCRUD.cfg_collection_name Hcfg) as Hcoll.
  cbn in Huser, Hpassword, Hdb, Hcoll.
  repeat (split; [assumption |]).
  eexists. rewrite Hev. unfold MongoDBCRUD.connection_string. cbn.
  rewrite Huser, Hpassword, Hauth. reflexivity.
Qed.

Lemma shelter_defaults_are_not_overridden_witness :
  exists self,
    fst (AnimalShelter.__init__ bad_port_env (fun _ => Some 27018) AnimalShelter.defaults
           (boot (Mongo.empty true))) = Return self /\
    MongoDBCRUD.auth_source self = "admin" /\
    MongoDBCRUD.database_name self = "AAC".
Proof.
  destruct (fst (AnimalShelter.__init__ bad_port_env (fun _ => Some 27018)
                   AnimalShelter.defaults (boot (Mongo.empty true))))
    as [self | e] eqn:Hret; [| vm_compute in Hret; discriminate].
  exists self. split; [reflexivity |].
  destruct (shelter_defaults_are_not_overridden bad_port_env (fun _ => Some 27018)
              AnimalShelter.defaults (boot (Mongo.empty true)) self Hret)
    as (Hauth & Hdefaults).
  split; [exact Hauth |]. apply (Hdefaults eq_refl).
Defined.

(** ** Creating and counting *)

(** X19: [create] passes every mapping, the empty one too, to [insert_one]
    as it is, on the active collection, once; when that answers, the result
    is [True] or [False] as the [inserted_id] is true or not in a
    condition, a [True] is logged with the identifier, and a [False] leaves
    no record and prints nothing. *)
Theorem create_inserts_the_document {W} `{Engine W}
    (self : MongoDBCRUD.store) (fields : list (string * pyval)) (st : sys W)
    (id : pyval) (w' : W) :
  engine_step (Insert_one (MongoDBCRUD.collection self) (PDict fields)) (world st)
  = (inr id, w') ->
  fst (MongoDBCRUD.create self (PDict fields) st) = Return (PBool (truthy id)) /\
  new_events st (snd (MongoDBCRUD.create self (PDict fields) st))
  = [{| ev_call := Insert_one (MongoDBCRUD.collection self) (PDict fields);
        ev_fault := None |}] /\
  world (snd (MongoDBCRUD.create self (PDict fields) st)) = w' /\
  logs (snd (MongoDBCRUD.create self (PDict fields) st))
  = (if truthy id
     then (logs st ++ [(INFO, [Lit "Document inserted with ID: "; Val id])])%list
     else logs st) /\
  stdout (snd (MongoDBCRUD.create self (PDict fields) st)) = stdout st.
Proof.
  intros Hstep. run. cbn [is_none is_dict negb andb]. rewrite Hstep.
  cbn [fst snd world trace logs stdout].
  destruct (truthy id); cbn [fst snd world trace logs stdout];
    repeat split; try reflexivity; apply new_events_app; reflexivity.
Qed.

Lemma create_inserts_the_document_witness :
  fst (MongoDBCRUD.create Examples.shelter (PDict []) (boot (Mongo.empty true)))
  = Return (PBool true).
Proof.
  exact (proj1 (create_inserts_the_document Examples.shelter [] (boot (Mongo.empty true))
                  (PObjectId 0)
                  (snd (Mongo.step (Insert_one (MongoDBCRUD.collection Examples.shelter)
                                               (PDict [])) (Mongo.empty true)))
                  eq_refl)).
Defined.

(** X20: when [count_documents] of the driver answers, the method returns
    that count after exactly one call on the active collection, with the
    query [read] would send for the same argument, and neither logs nor
    prints. *)
Theorem count_documents_returns_the_count {W} `{Engine W}
    (self : MongoDBCRUD.store) (query : pyval) (st : sys W) (n : Z) (w' : W) :
  is_dict (or_empty query) = true ->
  engine_step (Count_documents (MongoDBCRUD.collection self) (or_empty query)) (world st)
  = (inr n, w') ->
  MongoDBCRUD.count_documents self query st
  = (Return (PInt n),
     {| world := w';
        trace := (trace st ++ [{| ev_call := Count_documents (MongoDBCRUD.collection self)
                                                             (or_empty query);
                                   ev_fault := None |}])%list;
        logs := logs st;
        stdout := stdout st |}).
Proof.
  intros Hdict Hstep. unfold or_empty in *. run.
  destruct query; try discriminate; cbn in *; rewrite Hstep; reflexivity.
Qed.

Lemma count_documents_returns_the_count_witness :
  fst (MongoDBCRUD.count_documents Examples.shelter PNone (boot (Mongo.empty true)))
  = Return (PInt 0).
Proof.
  exact (f_equal fst
           (count_documents_returns_the_count Examples.shelter PNone
              (boot (Mongo.empty true)) 0 (Mongo.empty true) eq_refl eq_refl)).
Defined.

(** ** Names the driver refuses at construction *)

(** X22: a database or collection name the driver refuses stops
    construction like a fault of the server: once the client is made,
    [_connect] raises the driver's exception again after logging it at
    ERROR and printing it, and no ping is sent. *)
Theorem a_refused_name_stops_the_connection {W} `{Engine W}
    (c : MongoDBCRUD.config) (st : sys W) (cl : Client) (w1 : W) (e : exn) :
  engine_step (MongoClient (MongoDBCRUD.connection_string c)) (world st) = (inr cl, w1) ->
  database_name_check (MongoDBCRUD.cfg_database_name c) = Some e \/
  (database_name_check (MongoDBCRUD.cfg_database_name c) = None /\
   collection_name_check (MongoDBCRUD.cfg_collection_name c) = Some e) ->
  MongoDBCRUD._connect c st
  = (Raise e,
     {| world := w1;
        trace := (trace st ++ [{| ev_call := MongoClient (MongoDBCRUD.connection_string c);
                                   ev_fault := None |}])%list;
        logs := (logs st ++ [(ERROR, [Lit "Error connecting to MongoDB: "; Exn e])])%list;
        stdout := (stdout st ++ [[Lit "Error connecting to MongoDB: "; Exn e]])%list |}).
Proof.
  intros Hclient Hrefused.
  unfold MongoDBCRUD._connect, try_except, bind, pymongo, logger, print, ret, raise,
    client_subscript, database_subscript.
  rewrite Hclient. cbn [fst snd world trace logs stdout].
  destruct Hrefused as [Hdb | [Hdb Hcoll]].
  - rewrite Hdb. reflexivity.
  - rewrite Hdb. cbn. rewrite Hcoll. reflexivity.
Qed.

Lemma a_refused_name_stops_the_connection_witness :
  fst (MongoDBCRUD._connect
         {| MongoDBCRUD.cfg_username := None; MongoDBCRUD.cfg_password := None;
            MongoDBCRUD.cfg_host := "localhost"; MongoDBCRUD.cfg_port := 27017;
            MongoDBCRUD.cfg_database_name := "AAC";
            MongoDBCRUD.cfg_collection_name := "$animals";
            MongoDBCRUD.cfg_auth_source := "admin" |}
         (boot (Mongo.empty true)))
  = Raise (Mongo.invalid_name "collection names must not contain '$'").
Proof.
  assert (collection_name_check "$animals"
          = Some (Mongo.invalid_name "collection names must not contain '$'"))
    as Hrefused by reflexivity.
  assert (database_name_check "AAC" = None) as Haccepted by reflexivity.
  exact (f_equal fst
           (a_refused_name_stops_the_connection
              {| MongoDBCRUD.cfg_username := None; MongoDBCRUD.cfg_password := None;
                 MongoDBCRUD.cfg_host := "localhost"; MongoDBCRUD.cfg_port := 27017;
                 MongoDBCRUD.cfg_database_name := "AAC";
                 MongoDBCRUD.cfg_collection_name := "$animals";
                 MongoDBCRUD.cfg_auth_source := "admin" |}
              (boot (Mongo.empty true)) Examples.local_client (Mongo.empty true)
              (Mongo.invalid_name "collection names must not contain '$'")
              eq_refl (or_intror (conj Haccepted Hrefused)))).
Defined.
